(** * Session lifecycle of the OTP automation server (src/otp.js)

    A shallow embedding of the session table, the lazily created browser
    handle and the operations [createSession], [verifySessionOTP],
    [getSession], [getAllSessions], [closeSession], [cleanupOldSessions]
    and the [POST /close] route, followed by the properties of the
    specification that concern them.

    The automation library (Playwright) and the clock are the environment:
    every call the program makes to them is a [Call], answered by an
    arbitrary handler over an arbitrary world.  The program is written in
    a state-and-exception monad over the process state; an exception keeps
    the state reached so far, as a JavaScript [throw] does.  Console output
    is not modelled.  Execution is sequential: one request runs to
    completion before the next one starts. *)

From Stdlib Require Import ZArith List String Ascii Bool Lia.
Import ListNotations.
Local Open Scope string_scope.
Local Open Scope Z_scope.

(** ** Configuration (CONFIG) *)

Module CONFIG.
Definition TARGET_URL : string := "https://test-otptg.netlify.app/".
Definition SESSION_MAX_AGE_MS : Z := 30 * 60 * 1000.
Definition OTP_TTL_MS : Z := 5 * 60 * 1000.
Definition CLEANUP_INTERVAL_MS : Z := 5 * 60 * 1000.
Definition PAGE_TIMEOUT_MS : Z := 10000.
End CONFIG.

(** ** Handles and the calls made to the environment *)

Definition Browser := nat.
Definition Context := nat.
Definition Page := nat.
Definition Err := string.            (* err.message *)

(** One constructor per library call of the source; [IsClosed] and
    [DateNow] are the two synchronous calls, which do not throw. *)
Inductive Call : Type :=
| Launch                                            (* chromium.launch(...) *)
| BrowserClose (b : Browser)                        (* b.close() *)
| NewContext (b : Browser)                          (* browser.newContext(...) *)
| NewPage (c : Context)                             (* context.newPage() *)
| Goto (p : Page) (target : string) (timeout : Z)   (* page.goto *)
| WaitForSelector (p : Page) (sel : string) (timeout : Z)
| Fill (p : Page) (sel : string) (text : string)
| Click (p : Page) (sel : string)
| WaitForOtpText (p : Page) (timeout : Z)           (* page.waitForFunction(...) *)
| InnerText (p : Page) (sel : string)
| WaitForTimeout (p : Page) (ms : Z)
| EvalNotHidden (p : Page) (sel : string)           (* page.$eval(sel, el => !hidden) *)
| IsClosed (p : Page)                               (* page.isClosed() *)
| PageClose (p : Page)                              (* page.close() *)
| ContextClose (c : Context)                        (* context.close() *)
| DateNow.                                          (* Date.now() *)

(** What each call gives back: a rejected promise is [inl]. *)
Definition resp (c : Call) : Type :=
  match c with
  | Launch => (Err + Browser)%type
  | NewContext _ => (Err + Context)%type
  | NewPage _ => (Err + Page)%type
  | InnerText _ _ => (Err + string)%type
  | EvalNotHidden _ _ => (Err + bool)%type
  | IsClosed _ => bool
  | DateNow => Z
  | _ => (Err + unit)%type
  end.

(** The record of a call in the log. *)
Inductive Value : Type :=
| VUnit | VBool (b : bool) | VNum (z : Z) | VText (s : string) | VHandle (n : nat).

Inductive Outcome : Type :=
| Threw (e : Err)
| Gave (v : Value).

Inductive Event : Type := Ev (c : Call) (o : Outcome).

Definition settle {A} (inj : A -> Value) (r : Err + A) : Outcome :=
  match r with inl e => Threw e | inr a => Gave (inj a) end.

Definition observe (c : Call) : resp c -> Outcome :=
  match c return resp c -> Outcome with
  | Launch => settle VHandle
  | NewContext _ => settle VHandle
  | NewPage _ => settle VHandle
  | InnerText _ _ => settle VText
  | EvalNotHidden _ _ => settle VBool
  | IsClosed _ => fun b => Gave (VBool b)
  | DateNow => fun z => Gave (VNum z)
  | BrowserClose _ | Goto _ _ _ | WaitForSelector _ _ _ | Fill _ _ _
  | Click _ _ | WaitForOtpText _ _ | WaitForTimeout _ _ | PageClose _
  | ContextClose _ => settle (fun _ : unit => VUnit)
  end.

(** ** The session store

    [userSessions] is a JavaScript [Map]: insertion ordered, one entry per
    key.  It is an association list here; [Map_set] keeps the position of
    an existing key and appends a new one, as [Map.prototype.set] does. *)

Inductive Status : Type := awaiting_verification | verified.

Record Session : Type := mkSession {
  page : option Page;
  context : option Context;
  phone : string;
  otp : string;
  createdAt : Z;
  otpExpiresAt : Z;
  status : Status;
}.

Definition set_status (st : Status) (s : Session) : Session :=
  mkSession (page s) (context s) (phone s) (otp s) (createdAt s) (otpExpiresAt s) st.

Definition SessionMap := list (string * Session).

Fixpoint Map_get (id : string) (t : SessionMap) : option Session :=
  match t with
  | [] => None
  | (k, s) :: t' => if String.eqb k id then Some s else Map_get id t'
  end.

Definition Map_has (id : string) (t : SessionMap) : bool :=
  match Map_get id t with Some _ => true | None => false end.

Fixpoint Map_set (id : string) (v : Session) (t : SessionMap) : SessionMap :=
  match t with
  | [] => [(id, v)]
  | (k, s) :: t' => if String.eqb k id then (k, v) :: t' else (k, s) :: Map_set id v t'
  end.

Definition Map_delete (id : string) (t : SessionMap) : SessionMap :=
  filter (fun kv => negb (String.eqb (fst kv) id)) t.

Definition Map_keys (t : SessionMap) : list string := map fst t.

(** Assignment to a field of the object stored under [id]: the object is
    shared with the table, so the table sees the new field. *)
Fixpoint Map_mutate (id : string) (f : Session -> Session) (t : SessionMap) : SessionMap :=
  match t with
  | [] => []
  | (k, s) :: t' => if String.eqb k id then (k, f s) :: t' else (k, s) :: Map_mutate id f t'
  end.

(** ** Results returned to the caller (the JSON objects of the source) *)

Module CloseResult.
Record t : Type := mk {
    success : bool;
    error : option string;
    message : option string;
  }.
End CloseResult.

Module CreateResult.
Record t : Type := mk {
    success : bool;
    session_id : string;
    otp : string;
    phone : string;
    expires_in_seconds : Z;
    message : string;
  }.
End CreateResult.

Module VerifyResult.
Record t : Type := mk {
    success : bool;
    verified : bool;
    otp_matched : bool;
    thread_id : option string;
    error : option string;
    message : option string;
    status : option string;
    retry : option bool;
  }.
End VerifyResult.

(** [ISO ms] stands for [new Date(ms).toISOString()]. *)
Inductive IsoString : Type := ISO (ms : Z).

Module SessionInfo.
Record t : Type := mk {
    session_id : string;
    phone : string;
    otp : string;
    status : Status;
    created_at : IsoString;
    otp_expires_at : IsoString;
    otp_expired : bool;
  }.
End SessionInfo.

Inductive GetResult : Type :=
| GetMissing (error : string)                (* { success: false, error } *)
| GetFound (info : SessionInfo.t).           (* { success: true, ... } *)

Module SessionSummary.
Record t : Type := mk {
    session_id : string;
    phone : string;
    status : Status;
    created_at : IsoString;
    otp_expired : bool;
  }.
End SessionSummary.

Module ListResult.
Record t : Type := mk {
    success : bool;
    total : nat;
    sessions : list SessionSummary.t;
  }.
End ListResult.

Module HttpReply.
Record t : Type := mk {
    statusCode : Z;
    success : bool;
    message : string;
  }.
End HttpReply.

(** String.prototype.trim.  A [string] is the UTF-8 encoding of the
    JavaScript string.  White space is the WhiteSpace and LineTerminator
    of ECMAScript: U+0009 to U+000D and U+0020 (one byte), U+00A0 (two
    bytes), and U+1680, U+2000 to U+200A, U+2028, U+2029, U+202F, U+205F,
    U+3000 and U+FEFF (three bytes). *)
Definition is_space (a : ascii) : bool :=
  let n := nat_of_ascii a in
  (Nat.eqb n 32 || (Nat.leb 9 n && Nat.leb n 13))%bool.

Definition is_space_2 (a b : ascii) : bool :=
  (Nat.eqb (nat_of_ascii a) 194 && Nat.eqb (nat_of_ascii b) 160)%bool.

Definition is_space_3 (a b c : ascii) : bool :=
  let x := nat_of_ascii a in
  let y := nat_of_ascii b in
  let z := nat_of_ascii c in
  ((Nat.eqb x 225 && Nat.eqb y 154 && Nat.eqb z 128)
   || (Nat.eqb x 226 && Nat.eqb y 128 &&
       ((Nat.leb 128 z && Nat.leb z 138)
        || Nat.eqb z 168 || Nat.eqb z 169 || Nat.eqb z 175))
   || (Nat.eqb x 226 && Nat.eqb y 129 && Nat.eqb z 159)
   || (Nat.eqb x 227 && Nat.eqb y 128 && Nat.eqb z 128)
   || (Nat.eqb x 239 && Nat.eqb y 187 && Nat.eqb z 191))%bool.

Fixpoint trim_start (s : string) : string :=
  match s with
  | String a s1 =>
      if is_space a then trim_start s1
      else
        match s1 with
        | String b s2 =>
            if is_space_2 a b then trim_start s2
            else
              match s2 with
              | String c s3 => if is_space_3 a b c then trim_start s3 else s
              | EmptyString => s
              end
        | EmptyString => s
        end
  | EmptyString => EmptyString
  end.

Fixpoint reverse_onto (s acc : string) : string :=
  match s with
  | String a s' => reverse_onto s' (String a acc)
  | EmptyString => acc
  end.

Definition reverse (s : string) : string := reverse_onto s EmptyString.

(** [trim_start] on the bytes read from the end. *)
Fixpoint trim_start_reversed (s : string) : string :=
  match s with
  | String a s1 =>
      if is_space a then trim_start_reversed s1
      else
        match s1 with
        | String b s2 =>
            if is_space_2 b a then trim_start_reversed s2
            else
              match s2 with
              | String c s3 =>
                  if is_space_3 c b a then trim_start_reversed s3 else s
              | EmptyString => s
              end
        | EmptyString => s
        end
  | EmptyString => EmptyString
  end.

Definition trim_end (s : string) : string :=
  reverse (trim_start_reversed (reverse s)).

Definition trim (s : string) : string := trim_end (trim_start s).

Inductive Res (A : Type) : Type :=
| Ok (a : A)
| Throw (e : Err).
Arguments Ok {A} a.
Arguments Throw {A} e.

(** ** The process state and the monad *)

Section Program.

Variable W : Type.                                  (* state of the outside world *)
Variable handler : forall c : Call, W -> resp c * W.

Record Machine : Type := mkMachine {
  userSessions : SessionMap;
  _browserPromise : option Browser;
  world : W;
  log : list Event;
}.

Definition M (A : Type) : Type := Machine -> Res A * Machine.

Definition ret {A} (a : A) : M A := fun m => (Ok a, m).

Definition bind {A B} (x : M A) (f : A -> M B) : M B :=
  fun m => match x m with
           | (Ok a, m') => f a m'
           | (Throw e, m') => (Throw e, m')
           end.

Definition throw {A} (e : Err) : M A := fun m => (Throw e, m).

(** try { body } catch (err) { handle err } *)
Definition try_catch {A} (body : M A) (handle : Err -> M A) : M A :=
  fun m => match body m with
           | (Ok a, m') => (Ok a, m')
           | (Throw e, m') => handle e m'
           end.

(** A call to the environment, logged with what it gave. *)
Definition perform (c : Call) : M (resp c) :=
  fun m => let (r, w') := handler c (world m) in
           (Ok r, mkMachine (userSessions m) (_browserPromise m) w'
                            (log m ++ [Ev c (observe c r)])).

(** [await] of a promise: a rejection is thrown. *)
Definition await {A} (x : M (Err + A)) : M A :=
  bind x (fun r => match r with inl e => throw e | inr a => ret a end).

Definition getSessions : M SessionMap := fun m => (Ok (userSessions m), m).

Definition modifySessions (f : SessionMap -> SessionMap) : M unit :=
  fun m => (Ok tt, mkMachine (f (userSessions m)) (_browserPromise m) (world m) (log m)).

Definition getBrowserPromise : M (option Browser) := fun m => (Ok (_browserPromise m), m).

Definition setBrowserPromise (b : option Browser) : M unit :=
  fun m => (Ok tt, mkMachine (userSessions m) b (world m) (log m)).

Definition when_ (b : bool) (x : M unit) : M unit := if b then x else ret tt.

Notation "x <- a ;; b" := (bind a (fun x => b))
  (at level 61, a at next level, right associativity).
Notation "a ;; b" := (bind a (fun _ => b))
  (at level 61, right associativity).

(** for (const entry of entries) body(entry): the entries are those of the
    table when the loop starts.  A [Map] iterator is live, but the only
    entry a loop body of this program removes is the one being visited. *)
Fixpoint for_of {A} (entries : list A) (body : A -> M unit) : M unit :=
  match entries with
  | [] => ret tt
  | x :: rest => body x ;; for_of rest body
  end.

(** array.map(f) with an effectful callback. *)
Fixpoint map_each {A B} (f : A -> M B) (xs : list A) : M (list B) :=
  match xs with
  | [] => ret []
  | x :: rest => y <- f x ;; ys <- map_each f rest ;; ret (y :: ys)
  end.

(** ** Browser singleton

    [_browserPromise] holds the launch promise; run sequentially it is
    either null or fulfilled with the browser, a rejected launch having
    reset it to null before the rejection reaches the caller. *)

Definition getBrowser : M Browser :=
  bp <- getBrowserPromise ;;
  match bp with
  | None =>
      r <- perform Launch ;;
      match r with
      | inl err => setBrowserPromise None ;; throw err
      | inr b => setBrowserPromise (Some b) ;; ret b
      end
  | Some b => ret b
  end.

Definition resetBrowser : M unit :=
  bp <- getBrowserPromise ;;
  match bp with
  | Some b =>
      _ <- perform (BrowserClose b) ;;          (* try { ... } catch (_) { } *)
      setBrowserPromise None
  | None => ret tt
  end.

(** ** closeSession *)

Definition closeSession (sessionId : string) : M CloseResult.t :=
  t <- getSessions ;;
  match Map_get sessionId t with
  | None => ret (CloseResult.mk false (Some "Session ไม่พบ") None)
  | Some s =>
      try_catch
        (match page s with
         | Some p =>
             closed <- perform (IsClosed p) ;;
             when_ (negb closed) (await (perform (PageClose p)))
         | None => ret tt
         end ;;
         match context s with
         | Some c => await (perform (ContextClose c))
         | None => ret tt
         end)
        (fun _ => ret tt) ;;
      modifySessions (Map_delete sessionId) ;;
      ret (CloseResult.mk true None (Some ("Session " ++ sessionId ++ " ถูกปิด")))
  end.

(** ** createSession *)

(** The catch block of [createSession]; [page] and [context] are the two
    local variables as they stand when the exception is caught. *)
Definition createSession_catch {A} (page : option Page) (context : option Context)
    (err : Err) : M A :=
  match page with
  | Some p =>
      closed <- perform (IsClosed p) ;;
      when_ (negb closed) (_ <- perform (PageClose p) ;; ret tt)   (* .catch(() => {}) *)
  | None => ret tt
  end ;;
  match context with
  | Some c => _ <- perform (ContextClose c) ;; ret tt              (* .catch(() => {}) *)
  | None => ret tt
  end ;;
  throw err.

Definition createSession (sessionId phoneNumber : string) : M CreateResult.t :=
  t <- getSessions ;;
  when_ (Map_has sessionId t) (_ <- closeSession sessionId ;; ret tt) ;;
  browser <- getBrowser ;;
  c <- perform (NewContext browser) ;;
  match c with
  | inl err => createSession_catch None None err
  | inr context =>
      p <- perform (NewPage context) ;;
      match p with
      | inl err => createSession_catch None (Some context) err
      | inr page =>
          try_catch
            (await (perform (Goto page CONFIG.TARGET_URL CONFIG.PAGE_TIMEOUT_MS)) ;;
             await (perform (WaitForSelector page "#phoneInput" CONFIG.PAGE_TIMEOUT_MS)) ;;
             await (perform (Fill page "#phoneInput" phoneNumber)) ;;
             await (perform (Click page "#sendBtn")) ;;
             await (perform (WaitForOtpText page CONFIG.PAGE_TIMEOUT_MS)) ;;
             text <- await (perform (InnerText page "#mockSmsText")) ;;
             let generatedOtp := trim text in
             now <- perform DateNow ;;
             modifySessions
               (Map_set sessionId
                  (mkSession (Some page) (Some context) phoneNumber generatedOtp
                     now (now + CONFIG.OTP_TTL_MS) awaiting_verification)) ;;
             ret (CreateResult.mk true sessionId generatedOtp phoneNumber
                    (CONFIG.OTP_TTL_MS / 1000) "Session สร้างสำเร็จ รอการยืนยัน"))
            (createSession_catch (Some page) (Some context))
      end
  end.

(** ** verifySessionOTP *)

Definition verifySessionOTP (sessionId otpFromUser : string) (threadId : option string)
    : M VerifyResult.t :=
  t <- getSessions ;;
  match Map_get sessionId t with
  | None =>
      ret (VerifyResult.mk false false false threadId
             (Some "Session ไม่พบ กรุณาขอ OTP ใหม่") None None None)
  | Some session =>
      now <- perform DateNow ;;
      if now >? otpExpiresAt session then
        closeSession sessionId ;;
        ret (VerifyResult.mk false false false threadId
               (Some "OTP หมดอายุ กรุณาขอ OTP ใหม่") None (Some "expired") None)
      else
        unusable <- match page session with
                    | None => ret true
                    | Some p => perform (IsClosed p)
                    end ;;
        match page session, unusable with
        | Some p, false =>
            try_catch
              (await (perform (WaitForSelector p "#otpInput" CONFIG.PAGE_TIMEOUT_MS)) ;;
               await (perform (Fill p "#otpInput" otpFromUser)) ;;
               await (perform (Click p "#verifyBtn")) ;;
               await (perform (WaitForTimeout p 1500)) ;;
               r <- perform (EvalNotHidden p "#step3") ;;
               let step3Visible := match r with inr b => b | inl _ => false end in
               if step3Visible then
                 modifySessions (Map_mutate sessionId (set_status verified)) ;;
                 closeSession sessionId ;;
                 ret (VerifyResult.mk true true true threadId None
                        (Some "ยืนยัน OTP สำเร็จ!") (Some "success") None)
               else
                 modifySessions (Map_mutate sessionId (set_status awaiting_verification)) ;;
                 ret (VerifyResult.mk true false false threadId None
                        (Some "รหัส OTP ไม่ถูกต้อง กรุณาลองใหม่") (Some "failed") (Some true)))
              (fun err =>
                 closeSession sessionId ;;
                 ret (VerifyResult.mk false false false threadId
                        (Some err) None (Some "error") None))
        | _, _ =>
            closeSession sessionId ;;
            ret (VerifyResult.mk false false false threadId
                   (Some "Session หมดอายุ กรุณาขอ OTP ใหม่") None (Some "expired") None)
        end
  end.

(** ** Session helpers *)

Definition getSession (sessionId : string) : M GetResult :=
  t <- getSessions ;;
  match Map_get sessionId t with
  | None => ret (GetMissing "Session ไม่พบ")
  | Some s =>
      now <- perform DateNow ;;
      ret (GetFound (SessionInfo.mk sessionId (phone s) (otp s) (status s)
                       (ISO (createdAt s)) (ISO (otpExpiresAt s))
                       (now >? otpExpiresAt s)))
  end.

Definition getAllSessions : M ListResult.t :=
  t <- getSessions ;;
  sessions <- map_each
                (fun entry : string * Session =>
                   let (id, s) := entry in
                   now <- perform DateNow ;;
                   ret (SessionSummary.mk id (phone s) (status s) (ISO (createdAt s))
                          (now >? otpExpiresAt s)))
                t ;;
  ret (ListResult.mk true (List.length sessions) sessions).

(** The counter [count] of the source only feeds the console. *)
Definition cleanupOldSessions : M unit :=
  now <- perform DateNow ;;
  t <- getSessions ;;
  for_of t (fun entry : string * Session =>
              let (id, s) := entry in
              when_ (now - createdAt s >? CONFIG.SESSION_MAX_AGE_MS)
                    (_ <- closeSession id ;; ret tt)).

(** ** ROUTES['POST /close'] *)

Definition ROUTES_POST_close : M HttpReply.t :=
  t <- getSessions ;;
  for_of t (fun entry : string * Session => _ <- closeSession (fst entry) ;; ret tt) ;;
  resetBrowser ;;
  ret (HttpReply.mk 200 true "Browser และทุก session ถูกปิด").

End Program.

Arguments mkMachine {W} _ _ _ _.
Arguments userSessions {W} _.
Arguments _browserPromise {W} _.
Arguments world {W} _.
Arguments log {W} _.

Local Open Scope list_scope.

(** The table holds one entry per key. *)
Definition wf (t : SessionMap) : Prop := NoDup (Map_keys t).

(** The same as a check that computes: no key occurs twice. *)
Fixpoint distinct (ks : list string) : bool :=
  match ks with
  | [] => true
  | k :: ks' => negb (existsb (String.eqb k) ks') && distinct ks'
  end.

(** A session is swept when its age exceeds the maximum. *)
Definition too_old (now : Z) (s : Session) : bool :=
  now - createdAt s >? CONFIG.SESSION_MAX_AGE_MS.

(** Calls that [closeSession] makes. *)
Definition closing (e : Event) : Prop :=
  match e with
  | Ev (IsClosed _) _ | Ev (PageClose _) _ | Ev (ContextClose _) _ => True
  | _ => False
  end.


(** The entries of [es] picked by [sel], looked up by key. *)
Definition picked (sel : string * Session -> bool) (es : SessionMap) (k : string) : bool :=
  existsb (fun e => String.eqb (fst e) k && sel e)%bool es.

(** Every context and every tab that the run [tr] opened is asked to close
    later in [tr]; a tab found already closed needs no request. *)
Definition releases_what_it_opened (tr : list Event) : Prop :=
  (forall pre post b c,
      tr = pre ++ Ev (NewContext b) (Gave (VHandle c)) :: post ->
      exists o, In (Ev (ContextClose c) o) post) /\
  (forall pre post c p,
      tr = pre ++ Ev (NewPage c) (Gave (VHandle p)) :: post ->
      (exists o, In (Ev (PageClose p) o) post) \/
      In (Ev (IsClosed p) (Gave (VBool true))) post).

(** Readings of the clock. *)
Definition clock_read (e : Event) : Prop :=
  match e with
  | Ev DateNow _ => True
  | _ => False
  end.

(** What the run [tr] read from the page about the match: the value of the
    [$eval] on [#step3], a rejected [$eval] counting as "not shown"
    ([.catch(() => false)]); [None] when the run never got to read it. *)
Fixpoint step3_read (tr : list Event) : option bool :=
  match tr with
  | [] => None
  | Ev (EvalNotHidden _ _) (Gave (VBool b)) :: _ => Some b
  | Ev (EvalNotHidden _ _) _ :: _ => Some false
  | _ :: tr' => step3_read tr'
  end.

(** A step of submitting the code on tab [p] was rejected with [e]. *)
Definition submit_rejected (p : Page) (otp : string) (e : Err) (tr : list Event) : Prop :=
  In (Ev (WaitForSelector p "#otpInput" CONFIG.PAGE_TIMEOUT_MS) (Threw e)) tr \/
  In (Ev (Fill p "#otpInput" otp) (Threw e)) tr \/
  In (Ev (Click p "#verifyBtn") (Threw e)) tr \/
  In (Ev (WaitForTimeout p 1500) (Threw e)) tr.

(** Tab [p] was found closed by the check that follows the reading of the
    clock. *)
Definition found_closed (p : Page) (tr : list Event) : Prop :=
  exists now rest,
    tr = Ev DateNow (Gave (VNum now)) :: Ev (IsClosed p) (Gave (VBool true)) :: rest.

(** ** A simulated browser, to run the program on concrete inputs

    Tabs and contexts that are open are listed; a call in [rejects] fails
    and changes nothing. *)

Record Sim : Type := mkSim {
  clock : Z;
  fresh : nat;
  openContexts : list Context;
  openPages : list (Page * Context);
  smsText : string;
  step3Shown : bool;
  rejects : Call -> bool;
}.

Definition sim_ok (w : Sim) (c : Call) : Err + unit :=
  if rejects w c then inl "rejected" else inr tt.

Definition mem_nat (n : nat) (l : list nat) : bool := existsb (Nat.eqb n) l.

Definition sim : forall c : Call, Sim -> resp c * Sim :=
  fun c w =>
    match c return resp c * Sim with
    | Launch =>
        if rejects w Launch then (inl "rejected", w)
        else (inr (fresh w),
              mkSim (clock w) (S (fresh w)) (openContexts w) (openPages w)
                    (smsText w) (step3Shown w) (rejects w))
    | NewContext b =>
        if rejects w (NewContext b) then (inl "rejected", w)
        else (inr (fresh w),
              mkSim (clock w) (S (fresh w)) (fresh w :: openContexts w) (openPages w)
                    (smsText w) (step3Shown w) (rejects w))
    | NewPage c =>
        if rejects w (NewPage c) then (inl "rejected", w)
        else (inr (fresh w),
              mkSim (clock w) (S (fresh w)) (openContexts w) ((fresh w, c) :: openPages w)
                    (smsText w) (step3Shown w) (rejects w))
    | InnerText p sel =>
        if rejects w (InnerText p sel) then (inl "rejected", w) else (inr (smsText w), w)
    | EvalNotHidden p sel =>
        if rejects w (EvalNotHidden p sel) then (inl "rejected", w)
        else (inr (step3Shown w), w)
    | IsClosed p => (negb (mem_nat p (map fst (openPages w))), w)
    | DateNow => (clock w, w)
    | PageClose p =>
        if rejects w (PageClose p) then (inl "rejected", w)
        else (inr tt,
              mkSim (clock w) (fresh w) (openContexts w)
                    (filter (fun pc => negb (Nat.eqb (fst pc) p)) (openPages w))
                    (smsText w) (step3Shown w) (rejects w))
    | ContextClose c =>
        if rejects w (ContextClose c) then (inl "rejected", w)
        else (inr tt,
              mkSim (clock w) (fresh w)
                    (filter (fun c' => negb (Nat.eqb c' c)) (openContexts w))
                    (filter (fun pc => negb (Nat.eqb (snd pc) c)) (openPages w))
                    (smsText w) (step3Shown w) (rejects w))
    | BrowserClose b => (sim_ok w (BrowserClose b), w)
    | Goto p u t => (sim_ok w (Goto p u t), w)
    | WaitForSelector p s t => (sim_ok w (WaitForSelector p s t), w)
    | Fill p s t => (sim_ok w (Fill p s t), w)
    | Click p s => (sim_ok w (Click p s), w)
    | WaitForOtpText p t => (sim_ok w (WaitForOtpText p t), w)
    | WaitForTimeout p t => (sim_ok w (WaitForTimeout p t), w)
    end.

Definition never : Call -> bool := fun _ => false.

(** A browser with nothing open, at time [now]. *)
Definition sim_start (now : Z) (rej : Call -> bool) : Sim :=
  mkSim now 0 [] [] " 492817 " false rej.

Definition boot (w : Sim) : Machine Sim := mkMachine [] None w [].

(** The machine with another world and an emptied log. *)
Definition resume {W} (m : Machine W) (w : W) : Machine W :=
  mkMachine (userSessions m) (_browserPromise m) w [].

(** The state an operation leaves, whatever it returned. *)
Definition after {W A} (r : Res A * Machine W) : Machine W := snd r.

(** ** Requests served one after the other *)

Inductive Request : Type :=
| ReqCreate (sessionId phone : string)
| ReqVerify (sessionId otp : string) (threadId : option string)
| ReqGet (sessionId : string)
| ReqList
| ReqCloseSession (sessionId : string)
| ReqCleanup
| ReqClose.

Section Requests.

Variable W : Type.
Variable handler : forall c : Call, W -> resp c * W.

Definition serve (q : Request) (m : Machine W) : Machine W :=
  match q with
  | ReqCreate id ph => after (createSession W handler id ph m)
  | ReqVerify id o th => after (verifySessionOTP W handler id o th m)
  | ReqGet id => after (getSession W handler id m)
  | ReqList => after (getAllSessions W handler m)
  | ReqCloseSession id => after (closeSession W handler id m)
  | ReqCleanup => after (cleanupOldSessions W handler m)
  | ReqClose => after (ROUTES_POST_close W handler m)
  end.

(** The states of the process between requests that are served one after
    the other: it starts with an empty table and no browser; between two
    requests the world moves as it likes, and the log may be cut.  The
    states a request passes through at its own awaits are not among
    them. *)
Inductive reachable : Machine W -> Prop :=
| reach_start w : reachable (mkMachine [] None w [])
| reach_serve q m : reachable m -> reachable (serve q m)
| reach_idle m w lg :
    reachable m -> reachable (mkMachine (userSessions m) (_browserPromise m) w lg).

End Requests.

(** ** The routes (ROUTES)

    A handler is modelled from the point where [readBody] has given the
    parsed body (or [url.parse] the query): an object whose fields, when
    present, are JSON strings.  [a || b] keeps [a] when it is truthy, that
    is a string that is not empty. *)

Module Body.
Record t : Type := mk {
  session_id : option string;
  chat_id : option string;
  thread_id : option string;
  message_thread_id : option string;
  phone : option string;
  otp : option string;
}.
End Body.

Module Query.
Record t : Type := mk {
  session_id : option string;
  chat_id : option string;
  thread_id : option string;
}.
End Query.

Definition truthy (v : option string) : bool :=
  match v with
  | Some s => negb (String.eqb s "")
  | None => false
  end.

Definition js_or (a b : option string) : option string :=
  if truthy a then a else b.

(** The string held by a value known to be truthy. *)
Definition the_string (v : option string) : string :=
  match v with
  | Some s => s
  | None => ""
  end.

(** { success: false, error } *)
Module ErrorBody.
Record t : Type := mk {
  success : bool;
  error : string;
}.
End ErrorBody.

(** { success: true, sessions_remaining } *)
Module CleanupBody.
Record t : Type := mk {
  success : bool;
  sessions_remaining : nat;
}.
End CleanupBody.

(** What [sendJSON(res, statusCode, data)] sends. *)
Module Sent.
Record t (A : Type) : Type := mk {
  statusCode : Z;
  data : A;
}.
Arguments mk {A} _ _.
Arguments statusCode {A} _.
Arguments data {A} _.
End Sent.

Section Routes.

Variable W : Type.
Variable handler : forall c : Call, W -> resp c * W.

Local Notation "x <- a ;; b" := (bind W a (fun x => b))
  (at level 61, a at next level, right associativity).

Definition bad_request {A} (msg : string) : M W (Sent.t (ErrorBody.t + A)) :=
  ret W (Sent.mk 400 (inl (ErrorBody.mk false msg))).

(** ROUTES['POST /create-session'] *)
Definition ROUTES_POST_create_session (data : Body.t)
    : M W (Sent.t (ErrorBody.t + CreateResult.t)) :=
  let sessionId :=
    js_or (js_or (Body.session_id data) (Body.chat_id data)) (Body.thread_id data) in
  let phone := Body.phone data in
  if (negb (truthy sessionId) || negb (truthy phone))%bool then
    bad_request "กรุณาระบุ session_id และ phone"
  else
    r <- createSession W handler (the_string sessionId) (the_string phone) ;;
    ret W (Sent.mk 200 (inr r)).

(** ROUTES['POST /request-otp'], the legacy alias: the same body. *)
Definition ROUTES_POST_request_otp (data : Body.t)
    : M W (Sent.t (ErrorBody.t + CreateResult.t)) :=
  let sessionId :=
    js_or (js_or (Body.session_id data) (Body.chat_id data)) (Body.thread_id data) in
  let phone := Body.phone data in
  if (negb (truthy sessionId) || negb (truthy phone))%bool then
    bad_request "กรุณาระบุ session_id และ phone"
  else
    r <- createSession W handler (the_string sessionId) (the_string phone) ;;
    ret W (Sent.mk 200 (inr r)).

(** ROUTES['POST /verify-otp'] *)
Definition ROUTES_POST_verify_otp (data : Body.t)
    : M W (Sent.t (ErrorBody.t + VerifyResult.t)) :=
  let sessionId :=
    js_or (js_or (Body.session_id data) (Body.thread_id data)) (Body.chat_id data) in
  let otp := Body.otp data in
  let threadId :=
    js_or (js_or (Body.thread_id data) (Body.message_thread_id data)) sessionId in
  if (negb (truthy sessionId) || negb (truthy otp))%bool then
    bad_request "กรุณาระบุ session_id และ otp"
  else
    r <- verifySessionOTP W handler (the_string sessionId) (the_string otp) threadId ;;
    ret W (Sent.mk 200 (inr r)).

(** ROUTES['GET /get-session'] *)
Definition ROUTES_GET_get_session (query : Query.t)
    : M W (Sent.t (ErrorBody.t + GetResult)) :=
  let sessionId :=
    js_or (js_or (Query.session_id query) (Query.chat_id query)) (Query.thread_id query) in
  if negb (truthy sessionId) then
    bad_request "กรุณาระบุ session_id"
  else
    r <- getSession W handler (the_string sessionId) ;;
    ret W (Sent.mk 200 (inr r)).

(** ROUTES['GET /sessions'] *)
Definition ROUTES_GET_sessions : M W (Sent.t ListResult.t) :=
  r <- getAllSessions W handler ;;
  ret W (Sent.mk 200 r).

(** ROUTES['POST /close-session'] *)
Definition ROUTES_POST_close_session (data : Body.t)
    : M W (Sent.t (ErrorBody.t + CloseResult.t)) :=
  let sessionId :=
    js_or (js_or (Body.session_id data) (Body.chat_id data)) (Body.thread_id data) in
  if negb (truthy sessionId) then
    bad_request "กรุณาระบุ session_id"
  else
    r <- closeSession W handler (the_string sessionId) ;;
    ret W (Sent.mk 200 (inr r)).

(** ROUTES['POST /cleanup'] *)
Definition ROUTES_POST_cleanup : M W (Sent.t CleanupBody.t) :=
  _ <- cleanupOldSessions W handler ;;
  t <- getSessions W ;;
  ret W (Sent.mk 200 (CleanupBody.mk true (List.length t))).

End Routes.

(** ** The command line (main)

    [parse_args] is the loop over [process.argv.slice(2)]: an argument that
    starts with two dashes names a parameter and takes the next argument
    as its value, or [true] when there is none or it is empty; the value
    is skipped.  Of the parameters only [action] is read. *)

Inductive ParamValue : Type :=
| PTrue                      (* true *)
| PText (s : string).

Definition Params := list (string * ParamValue).

Fixpoint Params_get (k : string) (ps : Params) : option ParamValue :=
  match ps with
  | [] => None
  | (k', v) :: ps' => if String.eqb k' k then Some v else Params_get k ps'
  end.

Fixpoint Params_set (k : string) (v : ParamValue) (ps : Params) : Params :=
  match ps with
  | [] => [(k, v)]
  | (k', v') :: ps' =>
      if String.eqb k' k then (k', v) :: ps' else (k', v') :: Params_set k v ps'
  end.

(** s.startsWith('--') *)
Definition startsWith_dashes (s : string) : bool :=
  match s with
  | String "-" (String "-" _) => true
  | _ => false
  end.

(** s.slice(2) *)
Definition slice_2 (s : string) : string :=
  match s with
  | String _ (String _ rest) => rest
  | _ => ""
  end.

Fixpoint parse_args (args : list string) (params : Params) : Params :=
  match args with
  | [] => params
  | a :: rest =>
      if startsWith_dashes a then
        match rest with
        | [] => Params_set (slice_2 a) PTrue params
        | v :: rest' =>
            parse_args rest'
              (Params_set (slice_2 a)
                 (if String.eqb v "" then PTrue else PText v) params)
        end
      else parse_args rest params
  end.

Inductive MainOutput : Type :=
| ServerStarted                       (* startServer() *)
| SessionsPrinted (r : ListResult.t)  (* console.log(JSON.stringify(getAllSessions())) *)
| CleanedUp
| UsagePrinted.

Section Main.

Variable W : Type.
Variable handler : forall c : Call, W -> resp c * W.

Definition main (args : list string) : M W MainOutput :=
  let params := parse_args args [] in
  match Params_get "action" params with
  | None => ret W ServerStarted                       (* !action *)
  | Some PTrue => ret W UsagePrinted
  | Some (PText action) =>
      if String.eqb action "" then ret W ServerStarted
      else if String.eqb action "sessions" then
        bind W (getAllSessions W handler) (fun r => ret W (SessionsPrinted r))
      else if String.eqb action "cleanup" then
        bind W (cleanupOldSessions W handler) (fun _ => ret W CleanedUp)
      else ret W UsagePrinted
  end.

End Main.

(** The five results of [verifySessionOTP] for a session that exists. *)
Definition verify_expired (th : option string) : VerifyResult.t :=
  VerifyResult.mk false false false th (Some "OTP หมดอายุ กรุณาขอ OTP ใหม่")
    None (Some "expired") None.

Definition verify_page_closed (th : option string) : VerifyResult.t :=
  VerifyResult.mk false false false th (Some "Session หมดอายุ กรุณาขอ OTP ใหม่")
    None (Some "expired") None.

Definition verify_error (th : option string) (e : Err) : VerifyResult.t :=
  VerifyResult.mk false false false th (Some e) None (Some "error") None.

Definition verify_success (th : option string) : VerifyResult.t :=
  VerifyResult.mk true true true th None (Some "ยืนยัน OTP สำเร็จ!")
    (Some "success") None.

Definition verify_failed (th : option string) : VerifyResult.t :=
  VerifyResult.mk true false false th None
    (Some "รหัส OTP ไม่ถูกต้อง กรุณาลองใหม่") (Some "failed") (Some true).

(** What every stored session looks like while the process runs: tab and
    context set, awaiting verification, expiring [OTP_TTL_MS] after its
    creation. *)
Definition as_created (s : Session) : Prop :=
  page s <> None /\ context s <> None /\
  status s = awaiting_verification /\
  otpExpiresAt s = createdAt s + CONFIG.OTP_TTL_MS.

(** Every session is as created, and there are sessions only while there
    is a browser. *)
Definition sound {W} (m : Machine W) : Prop :=
  Forall (fun kv => as_created (snd kv)) (userSessions m) /\
  (userSessions m <> [] -> _browserPromise m <> None).

(** The fields of a listed session that do not depend on the clock. *)
Definition listed (r : SessionSummary.t) : string * string * Status * IsoString :=
  (SessionSummary.session_id r, SessionSummary.phone r, SessionSummary.status r,
   SessionSummary.created_at r).

Definition to_list (kv : string * Session) : string * string * Status * IsoString :=
  (fst kv, phone (snd kv), status (snd kv), ISO (createdAt (snd kv))).

(** ** Scenarios for the simulated browser *)

Definition set_clock (now : Z) (w : Sim) : Sim :=
  mkSim now (fresh w) (openContexts w) (openPages w) (smsText w) (step3Shown w) (rejects w).


Definition set_rejects (rej : Call -> bool) (w : Sim) : Sim :=
  mkSim (clock w) (fresh w) (openContexts w) (openPages w) (smsText w) (step3Shown w) rej.

(** "alice" has asked for a code at time 1000: browser 0, context 1, tab 2. *)
Definition alice_waiting : Machine Sim :=
  serve Sim sim (ReqCreate "alice" "0812345678") (boot (sim_start 1000 never)).

Definition alice_session : Session :=
  mkSession (Some 2%nat) (Some 1%nat) "0812345678" "492817" 1000 301000
    awaiting_verification.

(** "bob" joins at time 1500000: context 3, tab 4. *)
Definition alice_and_bob : Machine Sim :=
  serve Sim sim (ReqCreate "bob" "0898765432")
    (resume alice_waiting (set_clock 1500000 (world alice_waiting))).

(** The same, with the clock past the expiry of alice's code. *)
Definition alice_late : Machine Sim :=
  resume alice_waiting (set_clock 400000 (world alice_waiting)).


(** A table made by hand: "carol" is 1900 s old at time 1900000 and her
    code has not expired; "bob" is 400 s old. *)
Definition carol_session : Session :=
  mkSession (Some 2%nat) (Some 1%nat) "0811111111" "135790" 0 9999999
    awaiting_verification.

Definition bob_session : Session :=
  mkSession (Some 4%nat) (Some 3%nat) "0898765432" "492817" 1500000 1800000
    awaiting_verification.

Definition carol_and_bob : Machine Sim :=
  mkMachine [("carol", carol_session); ("bob", bob_session)] (Some 0%nat)
    (mkSim 1900000 5 [3%nat; 1%nat] [(4%nat, 3%nat); (2%nat, 1%nat)]
       " 492817 " false never) [].

Definition rejects_launch (c : Call) : bool :=
  match c with Launch => true | _ => false end.

(** alice and bob, at a time when alice is over the maximum age. *)
Definition alice_and_bob_later : Machine Sim :=
  resume alice_and_bob (set_clock 1900000 (world alice_and_bob)).

(** A body whose only id is an empty chat_id. *)
Definition body_without_id : Body.t :=
  Body.mk None (Some "") None None (Some "0812345678") (Some "492817").

(** A body with a chat_id and a thread_id and no session_id. *)
Definition body_chat_and_thread : Body.t :=
  Body.mk None (Some "chat-7") (Some "thread-9") None
    (Some "0812345678") (Some "492817").

Definition rejects_click_and_closing_tab_2 (c : Call) : bool :=
  match c with
  | Click _ _ => true
  | PageClose 2%nat => true
  | _ => false
  end.


Definition rejects_click (c : Call) : bool :=
  match c with Click _ _ => true | _ => false end.

Definition rejects_closing_tab_2 (c : Call) : bool :=
  match c with PageClose 2%nat => true | _ => false end.


(** ** Facts about the table *)

Lemma Map_get_delete_same id t : Map_get id (Map_delete id t) = None.
Proof.
  induction t as [|[k s] t IH]; simpl; auto.
  destruct (String.eqb k id) eqn:E; simpl; auto.
  now rewrite E.
Qed.

Lemma Map_get_delete_other id id' t :
  id <> id' -> Map_get id' (Map_delete id t) = Map_get id' t.
Proof.
  intros N. induction t as [|[k s] t IH]; simpl; auto.
  destruct (String.eqb k id) eqn:E; simpl.
  - apply String.eqb_eq in E. subst k.
    destruct (String.eqb id id') eqn:E'; auto.
    apply String.eqb_eq in E'. contradiction.
  - now rewrite IH.
Qed.

Lemma Map_delete_absent id t : Map_get id t = None -> Map_delete id t = t.
Proof.
  induction t as [|[k s] t IH]; simpl; auto.
  destruct (String.eqb k id); simpl; [discriminate|].
  intros H. now rewrite (IH H).
Qed.

Lemma Map_get_keys id t : Map_get id t <> None <-> In id (Map_keys t).
Proof.
  induction t as [|[k s] t IH]; simpl.
  - split; [congruence | tauto].
  - destruct (String.eqb k id) eqn:E.
    + apply String.eqb_eq in E. split; [auto | congruence].
    + apply String.eqb_neq in E. rewrite IH. split; [auto | intros [?|?]; congruence].
Qed.

Lemma Map_has_keys id t : Map_has id t = true <-> In id (Map_keys t).
Proof.
  rewrite <- Map_get_keys. unfold Map_has.
  destruct (Map_get id t); split; congruence.
Qed.

Lemma Map_keys_delete id t :
  Map_keys (Map_delete id t) = filter (fun k => negb (String.eqb k id)) (Map_keys t).
Proof.
  induction t as [|[k s] t IH]; simpl; auto.
  destruct (String.eqb k id); simpl; now rewrite IH.
Qed.

Lemma wf_delete id t : wf t -> wf (Map_delete id t).
Proof.
  unfold wf. rewrite Map_keys_delete. apply NoDup_filter.
Qed.

Lemma Map_keys_mutate id f t : Map_keys (Map_mutate id f t) = Map_keys t.
Proof.
  induction t as [|[k s] t IH]; simpl; auto.
  destruct (String.eqb k id); simpl; now rewrite ?IH.
Qed.

Lemma Map_keys_set_present id v t :
  Map_get id t <> None -> Map_keys (Map_set id v t) = Map_keys t.
Proof.
  induction t as [|[k s] t IH]; simpl; [congruence|].
  destruct (String.eqb k id); simpl; auto.
  intros H. now rewrite IH.
Qed.

Lemma Map_keys_set_absent id v t :
  Map_get id t = None -> Map_keys (Map_set id v t) = Map_keys t ++ [id].
Proof.
  induction t as [|[k s] t IH]; simpl; auto.
  destruct (String.eqb k id); simpl; [discriminate|].
  intros H. now rewrite IH.
Qed.

Lemma wf_set id v t : wf t -> wf (Map_set id v t).
Proof.
  unfold wf. intros H. destruct (Map_get id t) eqn:G.
  - rewrite Map_keys_set_present; congruence.
  - rewrite Map_keys_set_absent by assumption.
    apply NoDup_app; auto.
    + constructor; [simpl; tauto | constructor].
    + intros k Hk [<-|[]]. apply Map_get_keys in Hk. congruence.
Qed.

Lemma Map_get_set_same id v t : Map_get id (Map_set id v t) = Some v.
Proof.
  induction t as [|[k s] t IH]; simpl.
  - now rewrite String.eqb_refl.
  - destruct (String.eqb k id) eqn:E; simpl; now rewrite E.
Qed.

Lemma Map_get_mutate_same id f t :
  Map_get id (Map_mutate id f t) = option_map f (Map_get id t).
Proof.
  induction t as [|[k s] t IH]; simpl; auto.
  destruct (String.eqb k id) eqn:E; simpl; now rewrite E.
Qed.

Lemma Map_delete_mutate id f t :
  Map_delete id (Map_mutate id f t) = Map_delete id t.
Proof.
  induction t as [|[k s] t IH]; simpl; auto.
  destruct (String.eqb k id) eqn:E; simpl; rewrite E; simpl; auto.
  now rewrite IH.
Qed.

Lemma Map_get_set_other id id' v t :
  id <> id' -> Map_get id' (Map_set id v t) = Map_get id' t.
Proof.
  intros N. induction t as [|[k s] t IH]; simpl.
  - destruct (String.eqb id id') eqn:E; auto.
    apply String.eqb_eq in E. contradiction.
  - destruct (String.eqb k id) eqn:E; simpl.
    + apply String.eqb_eq in E. subst k.
      destruct (String.eqb id id') eqn:E'; auto.
      apply String.eqb_eq in E'. contradiction.
    + now rewrite IH.
Qed.

Lemma Map_get_mutate_other id id' f t :
  id <> id' -> Map_get id' (Map_mutate id f t) = Map_get id' t.
Proof.
  intros N. induction t as [|[k s] t IH]; simpl; auto.
  destruct (String.eqb k id) eqn:E; simpl.
  - apply String.eqb_eq in E. subst k.
    destruct (String.eqb id id') eqn:E'; auto.
    apply String.eqb_eq in E'. contradiction.
  - now rewrite IH.
Qed.

Lemma Map_get_In id s t : Map_get id t = Some s -> In (id, s) t.
Proof.
  induction t as [|[k s'] t IH]; simpl; [discriminate|].
  destruct (String.eqb k id) eqn:E.
  - apply String.eqb_eq in E. intros [= ->]. subst. auto.
  - auto.
Qed.

Lemma Forall_Map_delete (P : string * Session -> Prop) id t :
  Forall P t -> Forall P (Map_delete id t).
Proof.
  intros H. apply Forall_forall. intros x Hx.
  apply filter_In in Hx. rewrite Forall_forall in H. apply H, Hx.
Qed.

Lemma Forall_Map_set (P : Session -> Prop) id v t :
  Forall (fun kv => P (snd kv)) t -> P v ->
  Forall (fun kv => P (snd kv)) (Map_set id v t).
Proof.
  intros H Hv. induction t as [|[k s] t IH]; simpl.
  - repeat constructor. exact Hv.
  - inversion H as [|? ? Hs Ht]; subst.
    destruct (String.eqb k id); constructor; auto.
Qed.

Lemma Forall_Map_mutate (P : Session -> Prop) id f t :
  (forall s, P s -> P (f s)) ->
  Forall (fun kv => P (snd kv)) t ->
  Forall (fun kv => P (snd kv)) (Map_mutate id f t).
Proof.
  intros Hf H. induction t as [|[k s] t IH]; simpl; auto.
  inversion H as [|? ? Hs Ht]; subst.
  destruct (String.eqb k id); constructor; simpl in *; auto.
Qed.

Lemma Map_mutate_same id f t :
  Forall (fun kv => f (snd kv) = snd kv) t -> Map_mutate id f t = t.
Proof.
  induction 1 as [|[k s] t Hs _ IH]; simpl; auto.
  simpl in Hs. destruct (String.eqb k id); congruence.
Qed.

Lemma filter_not_nil {A} (f : A -> bool) l : filter f l <> [] -> l <> [].
Proof. destruct l; simpl; congruence. Qed.

Lemma filter_all {A} (f : A -> bool) l : forallb f l = true -> filter f l = l.
Proof.
  induction l as [|x l IH]; simpl; auto.
  intros H. apply andb_true_iff in H. destruct H as [-> H]. now rewrite IH.
Qed.

Lemma Params_get_set_same k v ps : Params_get k (Params_set k v ps) = Some v.
Proof.
  induction ps as [|[k' v'] ps IH]; simpl.
  - now rewrite String.eqb_refl.
  - destruct (String.eqb k' k) eqn:E; simpl; now rewrite E.
Qed.

Lemma Params_get_set_other k k' v ps :
  k <> k' -> Params_get k' (Params_set k v ps) = Params_get k' ps.
Proof.
  intros N. induction ps as [|[k0 v0] ps IH]; simpl.
  - destruct (String.eqb k k') eqn:E; auto.
    apply String.eqb_eq in E. contradiction.
  - destruct (String.eqb k0 k) eqn:E; simpl.
    + apply String.eqb_eq in E. subst k0.
      destruct (String.eqb k k') eqn:E'; auto.
      apply String.eqb_eq in E'. contradiction.
    + now rewrite IH.
Qed.

Lemma parse_args_no_flags pre rest ps :
  Forall (fun a => startsWith_dashes a = false) pre ->
  parse_args (pre ++ rest) ps = parse_args rest ps.
Proof.
  induction 1 as [|a pre Ha _ IH]; simpl; auto.
  now rewrite Ha.
Qed.

Lemma filter_twice {A} (f g : A -> bool) l :
  filter f (filter g l) = filter (fun x => g x && f x)%bool l.
Proof.
  induction l as [|x l IH]; simpl; auto.
  destruct (g x); simpl; [destruct (f x)|]; now rewrite IH.
Qed.

Lemma filter_none {A} (f : A -> bool) l :
  (forall x, In x l -> f x = false) -> filter f l = [].
Proof.
  induction l as [|x l IH]; simpl; auto.
  intros H. rewrite (H x) by auto. apply IH. auto.
Qed.

Lemma picked_absent sel es k : ~ In k (Map_keys es) -> picked sel es k = false.
Proof.
  induction es as [|[k' s'] es IH]; simpl; auto.
  intros H. destruct (String.eqb k' k) eqn:E; simpl.
  - apply String.eqb_eq in E. tauto.
  - apply IH. tauto.
Qed.

Lemma picked_own sel es k s :
  wf es -> In (k, s) es -> picked sel es k = sel (k, s).
Proof.
  unfold wf. induction es as [|[k' s'] es IH]; simpl; [tauto|].
  intros Hnd [Heq | Hin]; inversion Hnd as [|? ? Hn Hd]; subst.
  - injection Heq as -> ->. rewrite String.eqb_refl. simpl.
    rewrite (picked_absent sel es k Hn). apply orb_false_r.
  - assert (Hk : In k (Map_keys es)) by (apply (in_map fst _ _ Hin)).
    destruct (String.eqb k' k) eqn:E.
    + apply String.eqb_eq in E. subst. contradiction.
    + simpl. now apply IH.
Qed.

Lemma sweep_filter (f : Session -> bool) t :
  wf t ->
  filter (fun kv => negb (picked (fun e => f (snd e)) t (fst kv))) t =
  filter (fun kv => negb (f (snd kv))) t.
Proof.
  intros H. apply filter_ext_in. intros [k s] Hin. simpl.
  now rewrite (picked_own _ _ _ _ H Hin).
Qed.

Lemma Map_get_filter (f : Session -> bool) id t :
  wf t ->
  Map_get id (filter (fun kv => f (snd kv)) t) =
  match Map_get id t with
  | Some s => if f s then Some s else None
  | None => None
  end.
Proof.
  unfold wf. induction t as [|[k s] t IH]; simpl; auto.
  intros Hnd. inversion Hnd as [|? ? Hn Hd]; subst.
  destruct (String.eqb k id) eqn:E.
  - apply String.eqb_eq in E. subst k.
    assert (G : Map_get id t = None).
    { destruct (Map_get id t) eqn:G; auto. exfalso. apply Hn.
      apply Map_get_keys. congruence. }
    destruct (f s); simpl.
    + now rewrite String.eqb_refl.
    + rewrite (IH Hd), G. reflexivity.
  - destruct (f s); simpl; rewrite ?E; auto.
Qed.




Lemma step3_read_closing tr : Forall closing tr -> step3_read tr = None.
Proof.
  induction 1 as [|[c o] tr Hc _ IH]; simpl; auto.
  destruct c; simpl in Hc; try contradiction; auto.
Qed.

Arguments closeSession : simpl never.

Ltac open_closeSession := unfold closeSession, Map_has.
Ltac open_createSession :=
  unfold createSession, getBrowser, createSession_catch, Map_has.
Ltac open_verifySessionOTP := unfold verifySessionOTP.
Ltac open_getSession := unfold getSession.
Ltac open_getAllSessions := unfold getAllSessions.
Ltac open_cleanupOldSessions := unfold cleanupOldSessions.
Ltac open_ROUTES_POST_close := unfold ROUTES_POST_close, resetBrowser.
Ltac open_getBrowser := unfold getBrowser.
Ltac open_resetBrowser := unfold resetBrowser.
Ltac open_routes :=
  unfold ROUTES_POST_create_session, ROUTES_POST_request_otp,
    ROUTES_POST_verify_otp, ROUTES_GET_get_session, ROUTES_GET_sessions,
    ROUTES_POST_close_session, ROUTES_POST_cleanup, bad_request.
Ltac open_main := unfold main.

Lemma distinct_wf t : distinct (Map_keys t) = true -> wf t.
Proof.
  unfold wf. induction (Map_keys t) as [|k ks IH]; simpl; [constructor|].
  intros H. apply andb_true_iff in H. destruct H as [N D].
  constructor; auto. intros Hin.
  apply negb_true_iff in N.
  assert (X : existsb (String.eqb k) ks = true)
    by (apply existsb_exists; exists k; split; [assumption | apply String.eqb_refl]).
  congruence.
Qed.

(** ** Runs of the operations under any environment *)

Section Runs.

Variable W : Type.
Variable handler : forall c : Call, W -> resp c * W.

Abbreviation closeSession := (closeSession W handler).
Abbreviation createSession := (createSession W handler).
Abbreviation verifySessionOTP := (verifySessionOTP W handler).
Abbreviation getSession := (getSession W handler).
Abbreviation getAllSessions := (getAllSessions W handler).
Abbreviation cleanupOldSessions := (cleanupOldSessions W handler).
Abbreviation ROUTES_POST_close := (ROUTES_POST_close W handler).
Abbreviation getBrowser := (getBrowser W handler).
Abbreviation resetBrowser := (resetBrowser W handler).

(** Answer of the environment to the next call. *)
Ltac ask :=
  match goal with
  | |- context [handler ?c ?w] =>
      let r := fresh "r" in
      let w' := fresh "w" in
      let E := fresh "E" in
      destruct (handler c w) as [r w'] eqn:E; simpl in r; simpl
  end.

Ltac unfold_monad :=
  repeat (progress (unfold await, when_, perform, getSessions, modifySessions,
                      getBrowserPromise, setBrowserPromise, try_catch, throw,
                      ret, bind; simpl)).

(** The run reached is the one announced, up to an empty log suffix. *)
Ltac same_run := first [reflexivity | rewrite app_nil_r; reflexivity].

Ltac same_log := simpl; rewrite <- ?app_assoc; simpl; same_run.

Lemma bind_ok {A B} (x : M W A) (f : A -> M W B) m a m1 :
  x m = (Ok a, m1) -> bind W x f m = f a m1.
Proof. unfold bind. now intros ->. Qed.

(** [closeSession] never throws, removes the key and touches nothing but
    the tab and the context. *)
Lemma closeSession_run id (m : Machine W) :
  exists r w' tr,
    closeSession id m =
      (Ok r, mkMachine (Map_delete id (userSessions m)) (_browserPromise m) w'
               (log m ++ tr)) /\
    CloseResult.success r = Map_has id (userSessions m) /\
    Forall closing tr.
Proof.
  destruct m as [t bp w lg]. open_closeSession.
  unfold_monad.
  destruct (Map_get id t) as [s|] eqn:G.
  - destruct (page s) as [p|], (context s) as [c|]; simpl;
      repeat (ask; try match goal with r : bool |- _ => destruct r; simpl end;
              try match goal with r : (_ + _)%type |- _ => destruct r; simpl end);
      rewrite <- ?app_assoc; simpl;
      do 3 eexists; (split; [same_run | split; [reflexivity|]]);
      repeat constructor.
  - exists (CloseResult.mk false (Some "Session ไม่พบ") None), w, [].
    rewrite app_nil_r, (Map_delete_absent _ _ G). repeat split. constructor.
Qed.

(** Where an event can sit in a log that is written out. *)
Ltac locate H :=
  repeat match type of H with
         | _ = ?pre ++ _ :: _ =>
             destruct pre; simpl in H;
             [ inversion H; subst; clear H | first [discriminate H | injection H as _ H] ]
         end.

Ltac find_event :=
  solve [ simpl; repeat first [ left; reflexivity | right ] ].

(** X6. What [closeSession] asks of the browser for a session with a
    context: either the context is asked to close and no closing of a tab
    was rejected, or closing the tab was rejected and no context is asked
    to close. *)
Lemma closeSession_requests id (m : Machine W) s c :
  Map_get id (userSessions m) = Some s -> context s = Some c ->
  exists r m' tr,
    closeSession id m = (Ok r, m') /\
    log m' = log m ++ tr /\
    (((exists o, In (Ev (ContextClose c) o) tr) /\
      (forall p e, ~ In (Ev (PageClose p) (Threw e)) tr))
     \/
     ((exists p e, page s = Some p /\ In (Ev (PageClose p) (Threw e)) tr) /\
      (forall c' o, ~ In (Ev (ContextClose c') o) tr))).
Proof.
  destruct m as [t bp w lg]. simpl. intros G C. open_closeSession.
  unfold_monad. rewrite G, C.
  destruct (page s) as [p|]; simpl;
    repeat (ask; try match goal with r : bool |- _ => destruct r; simpl end;
            try match goal with r : (_ + _)%type |- _ => destruct r; simpl end);
    do 3 eexists; (split; [reflexivity|]); (split; [same_log|]);
    first [ left; split;
            [ eexists; find_event
            | intros ? ? Hin; simpl in Hin; intuition discriminate ]
          | right; split;
            [ do 2 eexists; split; [reflexivity | find_event]
            | intros ? ? Hin; simpl in Hin; intuition discriminate ] ].
Qed.

Ltac released :=
  split; intros pre post ? ? Hsplit; locate Hsplit;
  first [ eexists; find_event
        | left; eexists; find_event
        | right; find_event ].

(** The two ways [createSession] ends.  Its log is the closing of the
    session that held the key, if any, followed by the attempt, which
    starts with the launch when there is no browser.  When it throws, the
    key is gone from the table, the error is the one of a rejected call,
    and what the attempt opened has been asked to close.  When it returns,
    the key holds a fresh session. *)
Lemma createSession_run id phone (m : Machine W) :
  let (res, m') := createSession id phone m in
  exists tr1 tr2,
    log m' = log m ++ tr1 ++ tr2 /\
    Forall closing tr1 /\
    (Map_get id (userSessions m) = None -> tr1 = []) /\
    (forall s, Map_get id (userSessions m) = Some s ->
       exists c m1, closeSession id m = (Ok c, m1) /\ log m1 = log m ++ tr1) /\
    (_browserPromise m = None -> exists o k, tr2 = Ev Launch o :: k) /\
    match res with
    | Throw e =>
        userSessions m' = Map_delete id (userSessions m) /\
        (exists c, In (Ev c (Threw e)) tr2) /\
        releases_what_it_opened tr2
    | Ok r =>
        exists p c now,
          userSessions m' =
            Map_set id (mkSession (Some p) (Some c) phone (CreateResult.otp r) now
                          (now + CONFIG.OTP_TTL_MS) awaiting_verification)
                    (Map_delete id (userSessions m))
    end.
Proof.
  destruct m as [t bp w lg]. open_createSession. unfold_monad.
  destruct (Map_get id t) as [s|] eqn:G; simpl.
  - destruct (closeSession_run id (mkMachine t bp w lg)) as (r & w' & tr & E & _ & F).
    rewrite E. simpl in *.
    destruct bp as [b|]; simpl;
      repeat (ask; try match goal with r : bool |- _ => destruct r; simpl end;
              try match goal with r : (_ + _)%type |- _ => destruct r; simpl end);
      exists tr; eexists;
      (split; [rewrite <- ?app_assoc; simpl; same_run|]);
      (split; [assumption|]); (split; [discriminate|]);
      (split; [intros ? _; do 2 eexists; split; reflexivity|]);
      (split; [first [discriminate | intros _; do 2 eexists; reflexivity]|]);
      try (do 3 eexists; reflexivity);
      (split; [reflexivity|]); (split; [eexists; find_event|]); released.
  - destruct bp as [b|]; simpl;
      repeat (ask; try match goal with r : bool |- _ => destruct r; simpl end;
              try match goal with r : (_ + _)%type |- _ => destruct r; simpl end);
      rewrite ?(Map_delete_absent _ _ G);
      exists []; eexists;
      (split; [rewrite <- ?app_assoc; simpl; same_run|]);
      (split; [constructor|]); (split; [reflexivity|]);
      (split; [discriminate|]);
      (split; [first [discriminate | intros _; do 2 eexists; reflexivity]|]);
      try (do 3 eexists; reflexivity);
      (split; [reflexivity|]); (split; [eexists; find_event|]); released.
Qed.

Ltac close_it :=
  match goal with
  | |- context [closeSession ?id ?M] =>
      let cr := fresh "cr" in
      let cw := fresh "cw" in
      let ctr := fresh "ctr" in
      let CE := fresh "CE" in
      let CS := fresh "CS" in
      let CF := fresh "CF" in
      destruct (closeSession_run id M) as (cr & cw & ctr & CE & CS & CF);
      rewrite CE; simpl in *
  end.

Ltac closed_case G :=
  do 3 eexists; (split; [reflexivity|]); (split; [same_log|]);
  (split; [reflexivity|]); left; simpl;
  match goal with CF : Forall closing _ |- _ => rewrite (step3_read_closing _ CF) end;
  repeat split; try (intros; lia);
  match goal with
  | CE : closeSession _ _ = _, CS : CloseResult.success _ = _ |- _ =>
      do 3 eexists; (split; [|split; [|split; [exact CE|]]]);
      [ reflexivity | same_log | unfold Map_has in CS; now rewrite G in CS ]
  end.

(** The three ways [verifySessionOTP] ends for a session that exists:
    closed with an error result, matched and closed, or kept for a retry.
    It never throws. *)
Lemma verifySessionOTP_run id otp th (m : Machine W) s :
  Map_get id (userSessions m) = Some s ->
  let now := fst (handler DateNow (world m)) in
  exists r m' tr,
    verifySessionOTP id otp th m = (Ok r, m') /\
    log m' = log m ++ tr /\
    _browserPromise m' = _browserPromise m /\
    ((VerifyResult.success r = false /\ VerifyResult.verified r = false /\
      step3_read tr = None /\
      userSessions m' = Map_delete id (userSessions m) /\
      (now > otpExpiresAt s -> VerifyResult.status r = Some "expired") /\
      exists m1 tr1 c,
        userSessions m1 = userSessions m /\ log m1 = log m ++ tr1 /\
        closeSession id m1 = (Ok c, m') /\ CloseResult.success c = true)
     \/
     (now <= otpExpiresAt s /\ step3_read tr = Some true /\
      VerifyResult.success r = true /\ VerifyResult.verified r = true /\
      userSessions m' = Map_delete id (userSessions m))
     \/
     (now <= otpExpiresAt s /\ step3_read tr = Some false /\
      VerifyResult.success r = true /\ VerifyResult.verified r = false /\
      VerifyResult.status r = Some "failed" /\ VerifyResult.retry r = Some true /\
      userSessions m' =
        Map_mutate id (set_status awaiting_verification) (userSessions m))).
Proof.
  destruct m as [t bp w lg]. simpl. intros G.
  open_verifySessionOTP. unfold_monad. rewrite G. simpl.
  destruct (handler DateNow w) as [r w0] eqn:E; simpl.
  destruct (r >? otpExpiresAt s) eqn:X; simpl.
  - close_it. closed_case G.
  - assert (r <= otpExpiresAt s) by lia.
    destruct (page s) as [p|] eqn:P; simpl; [|close_it; closed_case G].
    ask. destruct r0; simpl; [close_it; closed_case G|].
    repeat (ask; match goal with r : (_ + _)%type |- _ => destruct r; simpl end;
            try (close_it; closed_case G)).
    + do 3 eexists. split; [reflexivity|]. split; [same_log|].
      split; [reflexivity|]. right; right. simpl. repeat split; assumption.
    + destruct b; simpl.
      * close_it. do 3 eexists. split; [reflexivity|]. split; [same_log|].
        split; [reflexivity|]. right; left. simpl.
        rewrite Map_delete_mutate. repeat split; assumption.
      * do 3 eexists. split; [reflexivity|]. split; [same_log|].
        split; [reflexivity|]. right; right. simpl. repeat split; assumption.
Qed.


(** A loop that closes the entries picked by [sel] leaves the others. *)
Lemma for_of_closing (sel : string * Session -> bool) body es :
  (forall e m,
      body e m =
      when_ W (sel e) (bind W (closeSession (fst e)) (fun _ => ret W tt)) m) ->
  forall m : Machine W,
  exists w' tr,
    for_of W es body m =
      (Ok tt, mkMachine
                (filter (fun kv => negb (picked sel es (fst kv))) (userSessions m))
                (_browserPromise m) w' (log m ++ tr)) /\
    Forall closing tr.
Proof.
  intros Hbody. induction es as [|e es IH]; intros [t bp w lg]; simpl.
  - exists w, []. rewrite app_nil_r. split; [|constructor].
    unfold ret. f_equal. f_equal.
    induction t as [|x t IHt]; simpl; congruence.
  - unfold bind at 1. rewrite Hbody. unfold when_.
    destruct (sel e) eqn:S.
    + unfold bind. close_it. unfold ret.
      match goal with |- context [for_of W es body ?M] =>
        destruct (IH M) as (w' & tr & R & F) end.
      rewrite R. simpl. exists w', (ctr ++ tr). rewrite app_assoc.
      split; [|apply Forall_app; auto].
      f_equal. f_equal. unfold Map_delete. rewrite filter_twice.
      apply filter_ext. intros [k s]. simpl.
      rewrite andb_true_r, negb_orb, (String.eqb_sym k). reflexivity.
    + unfold ret.
      destruct (IH (mkMachine t bp w lg)) as (w' & tr & R & F).
      rewrite R. simpl. exists w', tr. split; auto.
      f_equal. f_equal. apply filter_ext. intros [k s]. simpl.
      now rewrite andb_false_r.
Qed.

(** Listing reads the clock once per entry and changes nothing else. *)
Lemma map_each_summary (es : SessionMap) (m : Machine W) :
  exists rs w' tr,
    map_each W
      (fun entry : string * Session =>
         let (id, s) := entry in
         bind W (perform W handler DateNow)
           (fun now =>
              ret W (SessionSummary.mk id (phone s) (status s) (ISO (createdAt s))
                       (now >? otpExpiresAt s))))
      es m =
      (Ok rs, mkMachine (userSessions m) (_browserPromise m) w' (log m ++ tr)) /\
    map SessionSummary.session_id rs = Map_keys es /\
    Forall clock_read tr.
Proof.
  match goal with |- context [map_each W ?g es m] => set (f := g) end.
  assert (Hf : forall k s (m : Machine W),
             f (k, s) m =
             let (now, w') := handler DateNow (world m) in
             (Ok (SessionSummary.mk k (phone s) (status s) (ISO (createdAt s))
                    (now >? otpExpiresAt s)),
              mkMachine (userSessions m) (_browserPromise m) w'
                        (log m ++ [Ev DateNow (Gave (VNum now))]))).
  { intros k s m0. unfold f. unfold_monad. now destruct (handler DateNow (world m0)). }
  clearbody f. revert m.
  induction es as [|[k s] es IH]; intros [t bp w lg]; simpl.
  - exists [], w, []. rewrite app_nil_r. repeat split. constructor.
  - unfold bind. rewrite Hf. simpl. ask.
    match goal with |- context [map_each W f es ?M] =>
      destruct (IH M) as (rs & w' & tr & R & K & F) end.
    rewrite R. simpl. rewrite <- app_assoc. simpl.
    do 3 eexists. split; [reflexivity|].
    split; [simpl; now rewrite K|]. constructor; simpl; auto.
Qed.

(** ** The table keeps one entry per key *)

Lemma wf_filter (f : string * Session -> bool) t : wf t -> wf (filter f t).
Proof.
  unfold wf. induction t as [|[k s] t IH]; simpl; auto.
  intros H. inversion H as [|? ? Hn Hd]; subst.
  destruct (f (k, s)); simpl; auto.
  constructor; auto. intros Hin. apply Hn.
  apply in_map_iff in Hin. destruct Hin as ([k' s'] & <- & Hin).
  apply filter_In in Hin. apply (in_map fst _ _ (proj1 Hin)).
Qed.

Lemma wf_mutate id f t : wf t -> wf (Map_mutate id f t).
Proof. unfold wf. now rewrite Map_keys_mutate. Qed.

Lemma verifySessionOTP_missing id otp th (m : Machine W) :
  Map_get id (userSessions m) = None ->
  after (verifySessionOTP id otp th m) = m.
Proof.
  intros G. open_verifySessionOTP. unfold_monad. now rewrite G.
Qed.

Lemma getSession_run id (m : Machine W) :
  exists r w' tr,
    getSession id m =
      (Ok r, mkMachine (userSessions m) (_browserPromise m) w' (log m ++ tr)) /\
    Forall clock_read tr /\
    r = match Map_get id (userSessions m) with
        | None => GetMissing "Session ไม่พบ"
        | Some s =>
            GetFound (SessionInfo.mk id (phone s) (otp s) (status s)
                        (ISO (createdAt s)) (ISO (otpExpiresAt s))
                        (fst (handler DateNow (world m)) >? otpExpiresAt s))
        end.
Proof.
  destruct m as [t bp w lg]. open_getSession. unfold_monad.
  destruct (Map_get id t) as [s|]; simpl.
  - ask. do 3 eexists. split; [reflexivity|]. split; [|reflexivity].
    repeat constructor.
  - exists (GetMissing "Session ไม่พบ"), w, []. rewrite app_nil_r.
    repeat split. constructor.
Qed.

Lemma getAllSessions_run (m : Machine W) :
  exists r w' tr,
    getAllSessions m =
      (Ok r, mkMachine (userSessions m) (_browserPromise m) w' (log m ++ tr)) /\
    Forall clock_read tr /\
    ListResult.success r = true /\
    ListResult.total r = List.length (ListResult.sessions r) /\
    map SessionSummary.session_id (ListResult.sessions r) = Map_keys (userSessions m).
Proof.
  open_getAllSessions.
  destruct (map_each_summary (userSessions m) m) as (rs & w' & tr & R & K & F).
  rewrite (bind_ok (getSessions W) _ m (userSessions m) m eq_refl).
  rewrite (bind_ok _ _ m _ _ R).
  unfold ret. do 3 eexists. split; [reflexivity|].
  simpl. auto.
Qed.

Lemma cleanupOldSessions_run (m : Machine W) :
  exists w' tr,
    cleanupOldSessions m =
      (Ok tt,
       mkMachine
         (filter (fun kv =>
                    negb (picked (fun e => too_old (fst (handler DateNow (world m))) (snd e))
                            (userSessions m) (fst kv)))
                 (userSessions m))
         (_browserPromise m) w' (log m ++ tr)).
Proof.
  destruct m as [t bp w lg]. open_cleanupOldSessions.
  unfold bind at 1. unfold perform. simpl.
  destruct (handler DateNow w) as [now w0] eqn:E. simpl.
  unfold bind at 1, getSessions. simpl.
  match goal with |- context [for_of W t ?body ?M] =>
    destruct (for_of_closing (fun e => too_old now (snd e)) body t) with (m := M)
      as (w' & tr & R & F)
  end.
  { intros [k s] m0. reflexivity. }
  rewrite R. simpl. rewrite <- app_assoc. eauto.
Qed.

Lemma ROUTES_POST_close_run (m : Machine W) :
  exists r w' tr,
    ROUTES_POST_close m = (Ok r, mkMachine [] None w' (log m ++ tr)).
Proof.
  destruct m as [t bp w lg]. open_ROUTES_POST_close.
  unfold bind at 1, getSessions. simpl.
  match goal with |- context [for_of W t ?body] =>
    destruct (for_of_closing (fun _ => true) body t) with
      (m := mkMachine t bp w lg) as (w' & tr & R & F)
  end.
  { intros e m0. reflexivity. }
  unfold bind at 1. rewrite R. simpl.
  rewrite filter_none.
  2:{ intros [k s] Hin. simpl. apply negb_false_iff. unfold picked.
      apply existsb_exists. exists (k, s). simpl.
      now rewrite String.eqb_refl. }
  unfold_monad. destruct bp as [b|]; simpl.
  - ask. do 3 eexists. rewrite <- app_assoc. reflexivity.
  - do 3 eexists. reflexivity.
Qed.

Lemma serve_wf q (m : Machine W) :
  wf (userSessions m) -> wf (userSessions (serve W handler q m)).
Proof.
  intros H. destruct q as [id ph|id o th|id| |id| |]; simpl; unfold after.
  - pose proof (createSession_run id ph m) as R.
    destruct (createSession id ph m) as [res m'].
    destruct R as (tr1 & tr2 & _ & _ & _ & _ & _ & R). simpl.
    destruct res as [r|e].
    + destruct R as (p & c & now & ->). apply wf_set, wf_delete, H.
    + destruct R as (-> & _). apply wf_delete, H.
  - destruct (Map_get id (userSessions m)) as [s|] eqn:G.
    + destruct (verifySessionOTP_run id o th m s G)
        as (r & m' & tr & -> & _ & _ & [C | [C | C]]); simpl.
      * destruct C as (_ & _ & _ & -> & _). apply wf_delete, H.
      * destruct C as (_ & _ & _ & _ & ->). apply wf_delete, H.
      * destruct C as (_ & _ & _ & _ & _ & _ & ->). apply wf_mutate, H.
    + pose proof (verifySessionOTP_missing id o th m G) as E.
      unfold after in E. now rewrite E.
  - destruct (getSession_run id m) as (r & w' & tr & -> & _). exact H.
  - destruct (getAllSessions_run m) as (r & w' & tr & -> & _). exact H.
  - destruct (closeSession_run id m) as (r & w' & tr & -> & _). apply wf_delete, H.
  - destruct (cleanupOldSessions_run m) as (w' & tr & ->). apply wf_filter, H.
  - destruct (ROUTES_POST_close_run m) as (r & w' & tr & ->). constructor.
Qed.

Lemma reachable_wf (m : Machine W) : reachable W handler m -> wf (userSessions m).
Proof.
  induction 1; simpl; auto using serve_wf. constructor.
Qed.

(** ** Properties of the specification *)

(** Replacing a session is closing it and then creating it: with an entry
    under the key, [createSession] runs as it does on the state that
    [closeSession] leaves. *)
Lemma createSession_over_existing id phone (m : Machine W) :
  Map_get id (userSessions m) <> None ->
  createSession id phone m =
  createSession id phone (after (closeSession id m)).
Proof.
  intros G. destruct (closeSession_run id m) as (r & w' & tr & E & _ & _).
  rewrite E. unfold after. simpl.
  open_createSession.
  rewrite (bind_ok (getSessions W) _ m (userSessions m) m eq_refl).
  match goal with |- _ = bind W (getSessions W) ?f ?M =>
    rewrite (bind_ok (getSessions W) f M (userSessions M) M eq_refl) end.
  simpl. rewrite Map_get_delete_same.
  destruct (Map_get id (userSessions m)); [|congruence].
  unfold when_. unfold bind at 1. unfold bind at 1. rewrite E.
  reflexivity.
Qed.

(** C2. A session whose OTP expiry timestamp is before the time read by
    the verify call gets the rejection (success false, verified false,
    status "expired") and is removed from the table. *)
Theorem verifySessionOTP_expired id otp th (m : Machine W) s :
  Map_get id (userSessions m) = Some s ->
  fst (handler DateNow (world m)) > otpExpiresAt s ->
  exists r m',
    verifySessionOTP id otp th m = (Ok r, m') /\
    VerifyResult.success r = false /\
    VerifyResult.verified r = false /\
    VerifyResult.status r = Some "expired" /\
    Map_get id (userSessions m') = None /\
    userSessions m' = Map_delete id (userSessions m).
Proof.
  intros G X.
  destruct (verifySessionOTP_run id otp th m s G)
    as (r & m' & tr & E & _ & _ & [C | [C | C]]).
  - destruct C as (S & V & _ & T & St & _).
    exists r, m'. rewrite T. repeat split; auto.
    apply Map_get_delete_same.
  - destruct C as (N & _). lia.
  - destruct C as (N & _). lia.
Qed.


(** C4. The table being a Map (one entry per key), one run of the sweep
    removes every session whose age, at the time the sweep reads, exceeds
    the maximum session age, whatever its OTP expiry timestamp, and keeps
    every session at or under that age. *)
Theorem cleanupOldSessions_sweeps_by_age (m : Machine W) :
  wf (userSessions m) ->
  exists m',
    cleanupOldSessions m = (Ok tt, m') /\
    forall id s,
      Map_get id (userSessions m) = Some s ->
      (fst (handler DateNow (world m)) - createdAt s > CONFIG.SESSION_MAX_AGE_MS ->
       Map_get id (userSessions m') = None) /\
      (fst (handler DateNow (world m)) - createdAt s <= CONFIG.SESSION_MAX_AGE_MS ->
       Map_get id (userSessions m') = Some s).
Proof.
  intros H. destruct (cleanupOldSessions_run m) as (w' & tr & E).
  eexists. split; [exact E|]. simpl. intros id s G.
  rewrite (sweep_filter (too_old _) _ H).
  rewrite (Map_get_filter (fun s => negb (too_old _ s)) id _ H), G.
  unfold too_old. split; intros X.
  - rewrite (proj2 (Z.gtb_lt _ _)) by lia. reflexivity.
  - destruct (_ >? _) eqn:Q; [apply Z.gtb_lt in Q; lia | reflexivity].
Qed.


(** When verification of an existing session ends with an error result
    (success false), the last thing it did was a [closeSession] of that
    session that returned success, and the session is gone from the
    table. *)
Lemma verifySessionOTP_failure_closes id otp th (m : Machine W) s r m' :
  Map_get id (userSessions m) = Some s ->
  verifySessionOTP id otp th m = (Ok r, m') ->
  VerifyResult.success r = false ->
  Map_get id (userSessions m') = None /\
  userSessions m' = Map_delete id (userSessions m) /\
  exists m1 tr1 c,
    userSessions m1 = userSessions m /\
    log m1 = log m ++ tr1 /\
    closeSession id m1 = (Ok c, m') /\
    CloseResult.success c = true.
Proof.
  intros G E S.
  destruct (verifySessionOTP_run id otp th m s G)
    as (r' & m'' & tr & E' & _ & _ & C).
  rewrite E in E'. injection E' as <- <-.
  destruct C as [C | [C | C]].
  - destruct C as (_ & _ & _ & T & _ & Cl). rewrite T.
    split; [apply Map_get_delete_same|]. split; [reflexivity|]. exact Cl.
  - destruct C as (_ & _ & S' & _). congruence.
  - destruct C as (_ & _ & S' & _). congruence.
Qed.

Ltac case_in H :=
  simpl in H;
  repeat match type of H with
         | _ \/ _ => destruct H as [H|H]; [try discriminate H|]
         | False => contradiction
         end.

Ltac closed_by_it G :=
  split; [reflexivity|];
  match goal with
  | CE : closeSession _ _ = _, CS : CloseResult.success _ = _ |- _ =>
      do 3 eexists; (split; [|split; [|split; [exact CE|]]]);
      [ reflexivity | same_log | unfold Map_has in CS; now rewrite G in CS ]
  end.

Ltac failure_leaf G :=
  do 3 eexists; (split; [reflexivity|]); (split; [same_log|]); split;
  [ let e := fresh "e" in
    let H := fresh "H" in
    intros e H; unfold submit_rejected in H;
    destruct H as [H|[H|[H|H]]]; case_in H;
    try match goal with
        | CF : Forall closing ?l, H : In _ ?l |- _ =>
            exfalso; exact (proj1 (Forall_forall _ _) CF _ H)
        end;
    inversion H; subst; (split; [reflexivity | closed_by_it G])
  | let X := fresh "X" in
    let now := fresh "now" in
    let rest := fresh "rest" in
    let Heq := fresh "Heq" in
    intros X (now & rest & Heq); simpl in Heq;
    try discriminate Heq;
    try (exfalso; lia);
    (split; [reflexivity | closed_by_it G]) ].

(** The failures that C6 names.  When a step of submitting the code is
    rejected, the result is the error result with the message of that
    rejection; when the tab of a session that is not expired is found
    closed, the result is the one of a closed page.  In both cases the
    table has lost the key and the last thing the run did was a
    [closeSession] of the session that returned success. *)
Lemma verifySessionOTP_failures id otp th (m : Machine W) s p :
  Map_get id (userSessions m) = Some s ->
  page s = Some p ->
  exists r m' tr,
    verifySessionOTP id otp th m = (Ok r, m') /\
    log m' = log m ++ tr /\
    (forall e,
       submit_rejected p otp e tr ->
       r = verify_error th e /\
       userSessions m' = Map_delete id (userSessions m) /\
       exists m1 tr1 c,
         userSessions m1 = userSessions m /\ log m1 = log m ++ tr1 /\
         closeSession id m1 = (Ok c, m') /\ CloseResult.success c = true) /\
    (fst (handler DateNow (world m)) <= otpExpiresAt s ->
     found_closed p tr ->
     r = verify_page_closed th /\
     userSessions m' = Map_delete id (userSessions m) /\
     exists m1 tr1 c,
       userSessions m1 = userSessions m /\ log m1 = log m ++ tr1 /\
       closeSession id m1 = (Ok c, m') /\ CloseResult.success c = true).
Proof.
  destruct m as [t bp w lg]. simpl. intros G P.
  open_verifySessionOTP. unfold_monad. rewrite G. simpl.
  destruct (handler DateNow w) as [r w0] eqn:E; simpl.
  destruct (r >? otpExpiresAt s) eqn:X; simpl.
  - apply Z.gtb_lt in X. close_it. failure_leaf G.
  - rewrite P. simpl. ask. destruct r0; simpl; [close_it; failure_leaf G|].
    repeat (ask; match goal with r : (_ + _)%type |- _ => destruct r; simpl end;
            try (close_it; failure_leaf G)).
    + failure_leaf G.
    + destruct b; simpl; [close_it|]; failure_leaf G.
Qed.

(** C7. After the close-all route the table is empty and the browser
    handle is null, and the next [createSession], whatever the world has
    become, starts by launching a browser. *)
Theorem close_all_resets (m : Machine W) :
  exists r m',
    ROUTES_POST_close m = (Ok r, m') /\
    userSessions m' = [] /\
    _browserPromise m' = None /\
    forall id phone w,
    exists o k,
      log (after (createSession id phone (resume m' w))) = Ev Launch o :: k.
Proof.
  destruct (ROUTES_POST_close_run m) as (r & w' & tr & E).
  do 2 eexists. split; [exact E|]. simpl. repeat split.
  intros id phone w.
  pose proof (createSession_run id phone
                (resume (mkMachine [] None w' (log m ++ tr)) w)) as R.
  unfold after.
  destruct (createSession id phone _) as [res m2].
  destruct R as (tr1 & tr2 & L & _ & N & _ & B & _).
  simpl in *. rewrite (N eq_refl) in L.
  destruct (B eq_refl) as (o & k & ->). rewrite L. eauto.
Qed.

(** C8. In every state the process can reach, the listing names each
    entry of the table once, its total is the number of names, and the
    names are exactly the session ids for which a close call succeeds. *)
Theorem listing_counts_closable (m : Machine W) :
  reachable W handler m ->
  exists r m',
    getAllSessions m = (Ok r, m') /\
    userSessions m' = userSessions m /\
    ListResult.total r =
      List.length (map SessionSummary.session_id (ListResult.sessions r)) /\
    ListResult.total r = List.length (userSessions m) /\
    NoDup (map SessionSummary.session_id (ListResult.sessions r)) /\
    forall id,
      In id (map SessionSummary.session_id (ListResult.sessions r)) <->
      exists c m2, closeSession id m' = (Ok c, m2) /\ CloseResult.success c = true.
Proof.
  intros H. apply reachable_wf in H.
  destruct (getAllSessions_run m) as (r & w' & tr & E & _ & _ & T & K).
  assert (L : List.length (ListResult.sessions r) = List.length (userSessions m)).
  { rewrite <- (length_map SessionSummary.session_id), K. apply length_map. }
  do 2 eexists. split; [exact E|]. simpl. rewrite K, T.
  split; [reflexivity|].
  split; [unfold Map_keys; now rewrite length_map|].
  split; [exact L|].
  split; [exact H|]. intros id.
  match goal with |- context [closeSession id ?M] =>
    destruct (closeSession_run id M) as (c & w2 & tr2 & CE & CS & _) end.
  simpl in CS. rewrite <- Map_has_keys, <- CS. split.
  - intros S. eauto.
  - intros (c' & m2 & CE' & S). rewrite CE in CE'. now injection CE' as <- _.
Qed.


(** C10. [getSession] and [getAllSessions] return without throwing, only
    read the clock, and leave the table, with every field of every
    session, and the browser handle as they were; for an expired session
    [getSession] reports otp_expired true and the session stays. *)
Theorem queries_are_read_only (m : Machine W) id :
  (exists r w' tr,
     getSession id m =
       (Ok r, mkMachine (userSessions m) (_browserPromise m) w' (log m ++ tr)) /\
     Forall clock_read tr /\
     match Map_get id (userSessions m) with
     | Some s =>
         exists info,
           r = GetFound info /\
           SessionInfo.otp_expired info =
             (fst (handler DateNow (world m)) >? otpExpiresAt s)
     | None => exists msg, r = GetMissing msg
     end) /\
  (exists r w' tr,
     getAllSessions m =
       (Ok r, mkMachine (userSessions m) (_browserPromise m) w' (log m ++ tr)) /\
     Forall clock_read tr).
Proof.
  split.
  - destruct (getSession_run id m) as (r & w' & tr & E & F & R).
    exists r, w', tr. split; [exact E|]. split; [exact F|].
    destruct (Map_get id (userSessions m)); subst r; eauto.
  - destruct (getAllSessions_run m) as (r & w' & tr & E & F & _).
    eauto.
Qed.

(** ** More about the operations *)

(** *** Browser singleton *)

(** X1. Once [getBrowser] has given a browser, the handle holds it, and
    every later [getBrowser], whatever the world has become, gives the
    same browser without any call to the environment: the browser is
    launched at most once. *)
Theorem getBrowser_launches_once (m : Machine W) b m1 :
  getBrowser m = (Ok b, m1) ->
  _browserPromise m1 = Some b /\
  userSessions m1 = userSessions m /\
  forall w lg,
    getBrowser (mkMachine (userSessions m1) (_browserPromise m1) w lg) =
    (Ok b, mkMachine (userSessions m1) (_browserPromise m1) w lg).
Proof.
  destruct m as [t bp w lg]. open_getBrowser. unfold_monad.
  destruct bp as [b0|]; simpl.
  - intros [= <- <-]. simpl. auto.
  - ask. destruct r as [e|b1]; simpl; [discriminate|].
    intros [= <- <-]. simpl. auto.
Qed.

(** X2. When [getBrowser] throws, there was no browser, the error is the
    one of the rejected launch, the handle is null again, and the next
    [getBrowser] starts by launching. *)
Theorem getBrowser_failed_launch_retries (m : Machine W) e m1 :
  getBrowser m = (Throw e, m1) ->
  _browserPromise m = None /\
  _browserPromise m1 = None /\
  userSessions m1 = userSessions m /\
  log m1 = log m ++ [Ev Launch (Threw e)] /\
  forall w lg,
  exists o,
    log (after (getBrowser (mkMachine (userSessions m1) (_browserPromise m1) w lg))) =
    lg ++ [Ev Launch o].
Proof.
  destruct m as [t bp w lg]. open_getBrowser. unfold_monad.
  destruct bp as [b0|]; simpl; [discriminate|].
  ask. destruct r as [e1|b1]; simpl; [|discriminate].
  intros [= <- <-]. simpl. repeat split.
  intros w1 lg1. unfold after.
  destruct (handler Launch w1) as [[e2|b2] w2]; simpl; eauto.
Qed.

(** X3. [resetBrowser] never throws and leaves the handle null and the
    table as it was; it asks the browser to close when there was one,
    whatever the answer, and does nothing when there was none. *)
Theorem resetBrowser_clears (m : Machine W) :
  exists w' tr,
    resetBrowser m = (Ok tt, mkMachine (userSessions m) None w' (log m ++ tr)) /\
    match _browserPromise m with
    | Some b => exists o, tr = [Ev (BrowserClose b) o]
    | None => tr = [] /\ w' = world m
    end.
Proof.
  destruct m as [t bp w lg]. open_resetBrowser. unfold_monad.
  destruct bp as [b|]; simpl.
  - ask. do 2 eexists. split; [reflexivity|]. eauto.
  - exists w, []. rewrite app_nil_r. auto.
Qed.

(** *** Sessions that are not there *)

(** X4. For an id with no entry in the table, [closeSession],
    [verifySessionOTP] and [getSession] return their not-found result and
    leave the process as it was, without a call to the browser or a
    reading of the clock. *)
Theorem missing_session_is_left_alone id otp th (m : Machine W) :
  Map_get id (userSessions m) = None ->
  closeSession id m =
    (Ok (CloseResult.mk false (Some "Session ไม่พบ") None), m) /\
  verifySessionOTP id otp th m =
    (Ok (VerifyResult.mk false false false th
           (Some "Session ไม่พบ กรุณาขอ OTP ใหม่") None None None), m) /\
  getSession id m = (Ok (GetMissing "Session ไม่พบ"), m).
Proof.
  intros G. open_closeSession. open_verifySessionOTP. open_getSession.
  unfold_monad. rewrite G. auto.
Qed.

(** *** closeSession *)

(** X5. [closeSession] never throws, whatever the browser answers.  It
    reports success exactly when the id had an entry, leaves no entry for
    the id, keeps every other entry and the browser handle, and a second
    close of the same id reports failure and changes nothing. *)
Theorem closeSession_removes_only_its_key id (m : Machine W) :
  exists r m',
    closeSession id m = (Ok r, m') /\
    CloseResult.success r = Map_has id (userSessions m) /\
    Map_get id (userSessions m') = None /\
    (forall id', id' <> id ->
       Map_get id' (userSessions m') = Map_get id' (userSessions m)) /\
    _browserPromise m' = _browserPromise m /\
    exists r2,
      closeSession id m' = (Ok r2, m') /\ CloseResult.success r2 = false.
Proof.
  destruct (closeSession_run id m) as (r & w' & tr & E & S & _).
  do 2 eexists. split; [exact E|]. simpl. split; [exact S|].
  split; [apply Map_get_delete_same|].
  split; [intros id' N; apply Map_get_delete_other; congruence|].
  split; [reflexivity|].
  exists (CloseResult.mk false (Some "Session ไม่พบ") None). split; [|reflexivity].
  open_closeSession. unfold_monad. now rewrite Map_get_delete_same.
Qed.

(** *** createSession *)

Ltac find_in :=
  solve [ find_event | apply in_or_app; right; find_event ].

Ltac no_launch F :=
  let o := fresh "o" in
  let Hin := fresh "Hin" in
  intros o Hin;
  first [ apply in_app_or in Hin; destruct Hin as [Hin|Hin];
          [ exact (proj1 (Forall_forall _ _) F _ Hin)
          | simpl in Hin; intuition discriminate ]
        | simpl in Hin; intuition discriminate ].

(** What [createSession] does with the browser handle, and what it
    returns and stores when it succeeds. *)
Lemma createSession_outcome id phone (m : Machine W) :
  let (res, m') := createSession id phone m in
  exists tr,
    log m' = log m ++ tr /\
    match _browserPromise m with
    | Some b => _browserPromise m' = Some b /\ forall o, ~ In (Ev Launch o) tr
    | None =>
        (exists b, In (Ev Launch (Gave (VHandle b))) tr /\
                   _browserPromise m' = Some b) \/
        (exists e, In (Ev Launch (Threw e)) tr /\
                   _browserPromise m' = None /\ res = Throw e)
    end /\
    match res with
    | Ok r =>
        exists p c now text,
          r = CreateResult.mk true id (trim text) phone 300
                "Session สร้างสำเร็จ รอการยืนยัน" /\
          userSessions m' =
            Map_set id (mkSession (Some p) (Some c) phone (trim text) now
                          (now + CONFIG.OTP_TTL_MS) awaiting_verification)
                    (Map_delete id (userSessions m)) /\
          In (Ev (InnerText p "#mockSmsText") (Gave (VText text))) tr /\
          In (Ev DateNow (Gave (VNum now))) tr
    | Throw _ => True
    end.
Proof.
  destruct m as [t bp w lg]. open_createSession. unfold_monad.
  destruct (Map_get id t) as [s|] eqn:G; simpl.
  - destruct (closeSession_run id (mkMachine t bp w lg)) as (r & w' & tr & E & _ & F).
    rewrite E. simpl in *.
    assert (F' : Forall (fun e => match e with Ev Launch _ => False | _ => True end) tr).
    { revert F. apply Forall_impl. intros [c o]; destruct c; simpl; tauto. }
    destruct bp as [b|]; simpl;
      repeat (ask; try match goal with r : bool |- _ => destruct r; simpl end;
              try match goal with r : (_ + _)%type |- _ => destruct r; simpl end);
      eexists; (split; [rewrite <- ?app_assoc; simpl; same_run|]);
      (split;
       [ first [ split; [reflexivity | no_launch F']
               | left; eexists; split; [find_in | reflexivity]
               | right; eexists; split; [find_in | split; reflexivity] ]
       | first [ exact I
               | do 4 eexists; split; [reflexivity|];
                 split; [reflexivity|]; split; find_in ] ]).
  - destruct bp as [b|]; simpl;
      repeat (ask; try match goal with r : bool |- _ => destruct r; simpl end;
              try match goal with r : (_ + _)%type |- _ => destruct r; simpl end);
      rewrite ?(Map_delete_absent _ _ G);
      eexists; (split; [rewrite <- ?app_assoc; simpl; same_run|]);
      (split;
       [ first [ split; [reflexivity | intros o Hin; simpl in Hin; intuition discriminate]
               | left; eexists; split; [find_in | reflexivity]
               | right; eexists; split; [find_in | split; reflexivity] ]
       | first [ exact I
               | do 4 eexists; split; [reflexivity|];
                 split; [reflexivity|]; split; find_in ] ]).
Qed.

(** X7. When [createSession] returns, the result echoes the id and the
    phone, announces 300 seconds, and carries the text that the page
    showed, trimmed; the table holds under the id a session with that
    code and phone, created at a time the run read from the clock,
    expiring [OTP_TTL_MS] later, awaiting verification. *)
Theorem createSession_stores_what_it_returns id phone (m : Machine W) r m' :
  createSession id phone m = (Ok r, m') ->
  exists p c now text tr,
    log m' = log m ++ tr /\
    In (Ev (InnerText p "#mockSmsText") (Gave (VText text))) tr /\
    In (Ev DateNow (Gave (VNum now))) tr /\
    r = CreateResult.mk true id (trim text) phone 300
          "Session สร้างสำเร็จ รอการยืนยัน" /\
    Map_get id (userSessions m') =
      Some (mkSession (Some p) (Some c) phone (trim text) now
              (now + 300000) awaiting_verification).
Proof.
  intros E. pose proof (createSession_outcome id phone m) as R. rewrite E in R.
  destruct R as (tr & L & _ & p & c & now & text & -> & T & I1 & I2).
  exists p, c, now, text, tr. rewrite T, Map_get_set_same. auto.
Qed.

(** X8. A session that [createSession] has just returned is found by
    [getSession] under the same id, with the code and the phone of the
    result, awaiting verification, whatever the world has become. *)
Theorem createSession_then_getSession id phone (m : Machine W) r m' :
  createSession id phone m = (Ok r, m') ->
  forall w lg,
  exists info m2,
    getSession id (mkMachine (userSessions m') (_browserPromise m') w lg) =
      (Ok (GetFound info), m2) /\
    SessionInfo.session_id info = id /\
    SessionInfo.otp info = CreateResult.otp r /\
    SessionInfo.phone info = phone /\
    SessionInfo.status info = awaiting_verification /\
    userSessions m2 = userSessions m'.
Proof.
  intros E w lg. pose proof (createSession_outcome id phone m) as R. rewrite E in R.
  destruct R as (tr & L & _ & p & c & now & text & -> & T & _).
  destruct (getSession_run id (mkMachine (userSessions m') (_browserPromise m') w lg))
    as (g & w' & tr' & G & _ & Sh).
  simpl in Sh. rewrite T, Map_get_set_same in Sh. subst g.
  do 2 eexists. split; [exact G|]. simpl. auto.
Qed.

(** X9. [createSession] touches no session but the one of its id, whether
    it returns or throws, and keeps a browser handle that is there: with a
    browser it never launches another. *)
Theorem createSession_keeps_the_rest id phone (m : Machine W) :
  (forall id', id' <> id ->
     Map_get id' (userSessions (after (createSession id phone m))) =
     Map_get id' (userSessions m)) /\
  match _browserPromise m with
  | Some b =>
      _browserPromise (after (createSession id phone m)) = Some b /\
      exists tr,
        log (after (createSession id phone m)) = log m ++ tr /\
        forall o, ~ In (Ev Launch o) tr
  | None => True
  end.
Proof.
  pose proof (createSession_run id phone m) as R.
  pose proof (createSession_outcome id phone m) as O.
  unfold after. destruct (createSession id phone m) as [res m']. simpl.
  destruct R as (tr1 & tr2 & _ & _ & _ & _ & _ & T).
  destruct O as (tr & L & B & _). split.
  - intros id' N. destruct res as [r|e].
    + destruct T as (p & c & now & ->).
      rewrite Map_get_set_other by congruence.
      apply Map_get_delete_other. congruence.
    + destruct T as (-> & _). apply Map_get_delete_other. congruence.
  - destruct (_browserPromise m) as [b|]; [|exact I].
    destruct B as (B1 & B2). eauto.
Qed.

(** *** verifySessionOTP *)

Ltac shape n :=
  do 2 eexists; (split; [reflexivity|]); simpl;
  rewrite ?Map_delete_mutate;
  (split; [reflexivity|]);
  first [ left; split; [|reflexivity];
          first [ left; reflexivity
                | right; left; reflexivity
                | right; right; left; eexists; reflexivity
                | right; right; right; reflexivity ]
        | right; split; reflexivity ].

Lemma verifySessionOTP_shapes id otp th (m : Machine W) s :
  Map_get id (userSessions m) = Some s ->
  exists r m',
    verifySessionOTP id otp th m = (Ok r, m') /\
    _browserPromise m' = _browserPromise m /\
    (((r = verify_expired th \/ r = verify_page_closed th \/
       (exists e, r = verify_error th e) \/ r = verify_success th) /\
      userSessions m' = Map_delete id (userSessions m))
     \/
     (r = verify_failed th /\
      userSessions m' =
        Map_mutate id (set_status awaiting_verification) (userSessions m))).
Proof.
  destruct m as [t bp w lg]. simpl. intros G.
  open_verifySessionOTP. unfold_monad. rewrite G. simpl.
  destruct (handler DateNow w) as [r w0] eqn:E; simpl.
  destruct (r >? otpExpiresAt s) eqn:X; simpl.
  - close_it. shape 0.
  - destruct (page s) as [p|] eqn:P; simpl; [|close_it; shape 0].
    ask. destruct r0; simpl; [close_it; shape 0|].
    repeat (ask; match goal with r : (_ + _)%type |- _ => destruct r; simpl end;
            try (close_it; shape 0)).
    + shape 0.
    + destruct b; simpl; [close_it|]; shape 0.
Qed.

(** X10. [verifySessionOTP] never throws, whatever the page does: every
    failure of the automation comes back as a result.  It keeps the
    browser handle and every session but the one of its id; otp_matched
    is the same as verified, and a verified result comes with success and
    with the session gone. *)
Theorem verifySessionOTP_always_answers id otp th (m : Machine W) :
  exists r m',
    verifySessionOTP id otp th m = (Ok r, m') /\
    _browserPromise m' = _browserPromise m /\
    (forall id', id' <> id ->
       Map_get id' (userSessions m') = Map_get id' (userSessions m)) /\
    VerifyResult.otp_matched r = VerifyResult.verified r /\
    (VerifyResult.verified r = true ->
     VerifyResult.success r = true /\ Map_get id (userSessions m') = None).
Proof.
  destruct (Map_get id (userSessions m)) as [s|] eqn:G.
  - destruct (verifySessionOTP_shapes id otp th m s G)
      as (r & m' & E & B & [[R T] | [R T]]);
      exists r, m'; (split; [exact E|]); (split; [exact B|]); rewrite T.
    + split; [intros id' N; apply Map_get_delete_other; congruence|].
      destruct R as [-> | [-> | [(e & ->) | ->]]]; simpl;
        (split; [reflexivity|]); intros V; try discriminate V.
      split; [reflexivity | apply Map_get_delete_same].
    + split; [intros id' N; apply Map_get_mutate_other; congruence|].
      subst r. simpl. split; [reflexivity | discriminate].
  - do 2 eexists. split.
    + open_verifySessionOTP. unfold_monad. rewrite G. reflexivity.
    + simpl. split; [reflexivity|]. split; [reflexivity|].
      split; [reflexivity | discriminate].
Qed.

(** X11. For a session that exists, [verifySessionOTP] returns one of
    five results: expired, page closed, automation error, success, or
    failed with retry.  The session is still in the table, with status
    awaiting_verification, exactly in the last case. *)
Theorem verifySessionOTP_five_results id otp th (m : Machine W) s :
  Map_get id (userSessions m) = Some s ->
  exists r m',
    verifySessionOTP id otp th m = (Ok r, m') /\
    (((r = verify_expired th \/ r = verify_page_closed th \/
       (exists e, r = verify_error th e) \/ r = verify_success th) /\
      Map_get id (userSessions m') = None)
     \/
     (r = verify_failed th /\
      Map_get id (userSessions m') = Some (set_status awaiting_verification s))).
Proof.
  intros G.
  destruct (verifySessionOTP_shapes id otp th m s G)
    as (r & m' & E & _ & [[R T] | [R T]]);
    exists r, m'; (split; [exact E|]); rewrite T.
  - left. split; [exact R | apply Map_get_delete_same].
  - right. split; [exact R|]. now rewrite Map_get_mutate_same, G.
Qed.

(** *** Listing and sweeping *)

Lemma map_each_listing (es : SessionMap) (m : Machine W) :
  exists rs w' tr,
    map_each W
      (fun entry : string * Session =>
         let (id, s) := entry in
         bind W (perform W handler DateNow)
           (fun now =>
              ret W (SessionSummary.mk id (phone s) (status s) (ISO (createdAt s))
                       (now >? otpExpiresAt s))))
      es m =
      (Ok rs, mkMachine (userSessions m) (_browserPromise m) w' (log m ++ tr)) /\
    map listed rs = map to_list es /\
    List.length tr = List.length es /\
    Forall clock_read tr.
Proof.
  match goal with |- context [map_each W ?g es m] => set (f := g) end.
  assert (Hf : forall k s (m : Machine W),
             f (k, s) m =
             let (now, w') := handler DateNow (world m) in
             (Ok (SessionSummary.mk k (phone s) (status s) (ISO (createdAt s))
                    (now >? otpExpiresAt s)),
              mkMachine (userSessions m) (_browserPromise m) w'
                        (log m ++ [Ev DateNow (Gave (VNum now))]))).
  { intros k s m0. unfold f. unfold_monad. now destruct (handler DateNow (world m0)). }
  clearbody f. revert m.
  induction es as [|[k s] es IH]; intros [t bp w lg]; simpl.
  - exists [], w, []. rewrite app_nil_r. repeat split. constructor.
  - unfold bind. rewrite Hf. simpl. ask.
    match goal with |- context [map_each W f es ?M] =>
      destruct (IH M) as (rs & w' & tr & R & K & N & F) end.
    rewrite R. simpl. rewrite <- app_assoc. simpl.
    do 3 eexists. split; [reflexivity|].
    split; [simpl; unfold listed at 1, to_list at 1; simpl; now rewrite K|].
    split; [simpl; now rewrite N|]. constructor; simpl; auto.
Qed.

(** X12. [getAllSessions] lists the sessions in the order of the table
    (the order in which the keys were first set), each with the id,
    phone, status and creation time of its entry; it reads the clock once
    per entry and calls nothing else, so an empty table gives total 0
    without any call. *)
Theorem getAllSessions_lists_in_order (m : Machine W) :
  exists r w' tr,
    getAllSessions m =
      (Ok r, mkMachine (userSessions m) (_browserPromise m) w' (log m ++ tr)) /\
    ListResult.success r = true /\
    ListResult.total r = List.length (userSessions m) /\
    map listed (ListResult.sessions r) = map to_list (userSessions m) /\
    List.length tr = List.length (userSessions m) /\
    Forall clock_read tr.
Proof.
  open_getAllSessions.
  destruct (map_each_listing (userSessions m) m) as (rs & w' & tr & R & K & N & F).
  rewrite (bind_ok (getSessions W) _ m (userSessions m) m eq_refl).
  rewrite (bind_ok _ _ m _ _ R).
  unfold ret. do 3 eexists. split; [reflexivity|]. simpl.
  split; [reflexivity|].
  split; [rewrite <- (length_map listed), K; apply length_map|]. auto.
Qed.

Lemma for_of_nothing body (es : SessionMap) :
  (forall e m, In e es -> body e m = (Ok tt, m)) ->
  forall m : Machine W, for_of W es body m = (Ok tt, m).
Proof.
  induction es as [|e es IH]; intros H m; simpl; [reflexivity|].
  unfold bind. rewrite H by (simpl; auto). apply IH.
  intros e' m' Hin. apply H. simpl. auto.
Qed.

(** X13. A sweep that finds no session over the maximum age reads the
    clock, calls nothing else and leaves the table and the browser handle
    as they were. *)
Theorem cleanupOldSessions_without_old_sessions (m : Machine W) :
  forallb (fun kv => negb (too_old (fst (handler DateNow (world m))) (snd kv)))
          (userSessions m) = true ->
  cleanupOldSessions m =
    (Ok tt,
     mkMachine (userSessions m) (_browserPromise m)
               (snd (handler DateNow (world m)))
               (log m ++ [Ev DateNow (Gave (VNum (fst (handler DateNow (world m)))))])).
Proof.
  destruct m as [t bp w lg]. simpl. intros H. open_cleanupOldSessions.
  unfold bind at 1. unfold perform. simpl.
  destruct (handler DateNow w) as [now w0] eqn:E. simpl in *.
  unfold bind at 1, getSessions. simpl.
  apply for_of_nothing. intros [k s] m0 Hin.
  rewrite forallb_forall in H. specialize (H _ Hin). simpl in H.
  apply negb_true_iff in H. unfold too_old in H. now rewrite H.
Qed.

(** *** What holds in every state the process reaches *)

Lemma as_created_set_status s :
  as_created s -> as_created (set_status awaiting_verification s).
Proof. unfold as_created. destruct s; simpl. tauto. Qed.

Lemma serve_sound q (m : Machine W) : sound m -> sound (serve W handler q m).
Proof.
  intros [HF HB]. unfold sound.
  destruct q as [id ph|id o th|id| |id| |]; simpl; unfold after.
  - pose proof (createSession_run id ph m) as R.
    pose proof (createSession_outcome id ph m) as O.
    destruct (createSession id ph m) as [res m']. simpl.
    destruct R as (tr1 & tr2 & _ & _ & _ & _ & _ & T).
    destruct O as (tr & _ & B & S).
    destruct res as [r|e].
    + destruct S as (p & c & now & text & _ & -> & _). split.
      * apply Forall_Map_set; [apply Forall_Map_delete, HF|].
        unfold as_created. simpl. repeat split; discriminate.
      * intros _. destruct (_browserPromise m) as [b|].
        -- destruct B as (-> & _). discriminate.
        -- destruct B as [(b & _ & ->) | (e & _ & _ & X)]; discriminate.
    + destruct T as (-> & _). split; [apply Forall_Map_delete, HF|].
      intros N. apply filter_not_nil in N.
      destruct (_browserPromise m) as [b|].
      * destruct B as (-> & _). discriminate.
      * exfalso. now apply (HB N).
  - destruct (Map_get id (userSessions m)) as [s|] eqn:G.
    + destruct (verifySessionOTP_shapes id o th m s G)
        as (r & m' & -> & B & [[_ T] | [_ T]]); simpl; rewrite T, B; split.
      * apply Forall_Map_delete, HF.
      * intros N. apply filter_not_nil in N. auto.
      * apply Forall_Map_mutate; [apply as_created_set_status | exact HF].
      * intros N. apply HB. intros Z. rewrite Z in N. now apply N.
    + pose proof (verifySessionOTP_missing id o th m G) as E.
      unfold after in E. rewrite E. split; assumption.
  - destruct (getSession_run id m) as (r & w' & tr & -> & _). split; assumption.
  - destruct (getAllSessions_run m) as (r & w' & tr & -> & _). split; assumption.
  - destruct (closeSession_run id m) as (r & w' & tr & -> & _). split; simpl.
    + apply Forall_Map_delete, HF.
    + intros N. apply filter_not_nil in N. auto.
  - destruct (cleanupOldSessions_run m) as (w' & tr & ->). split; simpl.
    + apply Forall_forall. intros x Hx. apply filter_In in Hx.
      rewrite Forall_forall in HF. apply HF, Hx.
    + intros N. apply filter_not_nil in N. auto.
  - destruct (ROUTES_POST_close_run m) as (r & w' & tr & ->). split; simpl.
    + constructor.
    + congruence.
Qed.

Lemma reachable_sound (m : Machine W) : reachable W handler m -> sound m.
Proof.
  induction 1 as [w|q m _ IH|m w lg _ IH].
  - split; simpl; [constructor | congruence].
  - apply serve_sound, IH.
  - exact IH.
Qed.

(** X14. In every state the process reaches, a session of the table has
    its tab and its context set and an expiry [OTP_TTL_MS] after its
    creation: these fields are written when the session is created and
    never again. *)
Theorem reachable_sessions_keep_their_creation_fields (m : Machine W) id s :
  reachable W handler m ->
  Map_get id (userSessions m) = Some s ->
  page s <> None /\ context s <> None /\
  otpExpiresAt s = createdAt s + 300000.
Proof.
  intros H G. destruct (reachable_sound m H) as [HF _].
  rewrite Forall_forall in HF.
  destruct (HF _ (Map_get_In _ _ _ G)) as (P & C & _ & X). auto.
Qed.

(** X15. In every state the process reaches, a session that the sweep
    removes had a code that was already expired when the sweep read the
    clock: the sweep never takes a session whose code is still good. *)
Theorem cleanupOldSessions_takes_only_expired (m : Machine W) id s :
  reachable W handler m ->
  Map_get id (userSessions m) = Some s ->
  Map_get id (userSessions (after (cleanupOldSessions m))) = None ->
  fst (handler DateNow (world m)) > otpExpiresAt s.
Proof.
  intros H G N. pose proof (reachable_wf m H) as Hwf.
  destruct (reachable_sound m H) as [HF _].
  rewrite Forall_forall in HF.
  destruct (HF _ (Map_get_In _ _ _ G)) as (_ & _ & _ & X). simpl in X.
  destruct (cleanupOldSessions_run m) as (w' & tr & E).
  rewrite E in N. unfold after in N. simpl in N.
  rewrite (sweep_filter (too_old _) _ Hwf) in N.
  rewrite (Map_get_filter (fun s => negb (too_old _ s)) id _ Hwf), G in N.
  unfold too_old in N.
  destruct (_ >? _) eqn:Q; simpl in N; [|discriminate].
  apply Z.gtb_lt in Q. unfold CONFIG.SESSION_MAX_AGE_MS in Q.
  unfold CONFIG.OTP_TTL_MS in X.
  change (resp DateNow) with Z in *. lia.
Qed.


(** X17. In every state the process reaches, a verification that ends
    with retry leaves the table and the browser handle exactly as they
    were: the same code can be tried again against the same session. *)
Theorem verifySessionOTP_retry_changes_nothing id otp th (m : Machine W) r m' :
  reachable W handler m ->
  verifySessionOTP id otp th m = (Ok r, m') ->
  VerifyResult.retry r = Some true ->
  userSessions m' = userSessions m /\
  _browserPromise m' = _browserPromise m.
Proof.
  intros H E R. destruct (reachable_sound m H) as [HF _].
  destruct (Map_get id (userSessions m)) as [s|] eqn:G.
  - destruct (verifySessionOTP_shapes id otp th m s G)
      as (r' & m'' & E' & B & [[Sh T] | [Sh T]]);
      rewrite E in E'; injection E' as <- <-.
    + destruct Sh as [-> | [-> | [(e & ->) | ->]]]; discriminate R.
    + split; [|exact B]. rewrite T. apply Map_mutate_same.
      revert HF. apply Forall_impl. intros [k s0] (_ & _ & St & _).
      simpl in *. destruct s0; simpl in *. now subst.
  - pose proof (verifySessionOTP_missing id otp th m G) as U.
    rewrite E in U. unfold after in U. simpl in U. subst m'.
    revert E. open_verifySessionOTP. unfold_monad. rewrite G.
    intros [= <-]. discriminate R.
Qed.

(** *** The routes *)

(** X18. A body in which none of session_id, chat_id and thread_id is a
    string that is not empty is answered 400 with success false by the
    create-session, request-otp, verify-otp and close-session routes, and
    the process is left as it was: no session is touched and no call is
    made. *)
Theorem routes_reject_a_body_without_id (data : Body.t) (m : Machine W) :
  truthy (Body.session_id data) = false ->
  truthy (Body.chat_id data) = false ->
  truthy (Body.thread_id data) = false ->
  ROUTES_POST_create_session W handler data m =
    (Ok (Sent.mk 400 (inl (ErrorBody.mk false "กรุณาระบุ session_id และ phone"))), m) /\
  ROUTES_POST_request_otp W handler data m =
    (Ok (Sent.mk 400 (inl (ErrorBody.mk false "กรุณาระบุ session_id และ phone"))), m) /\
  ROUTES_POST_verify_otp W handler data m =
    (Ok (Sent.mk 400 (inl (ErrorBody.mk false "กรุณาระบุ session_id และ otp"))), m) /\
  ROUTES_POST_close_session W handler data m =
    (Ok (Sent.mk 400 (inl (ErrorBody.mk false "กรุณาระบุ session_id"))), m).
Proof.
  intros S C T. open_routes. unfold js_or.
  repeat (rewrite ?S, ?C, ?T; simpl).
  repeat split.
Qed.

(** X19. The routes do not look for the id in the same order: without a
    session_id, create-session takes chat_id before thread_id and
    verify-otp takes thread_id before chat_id.  So when a body carries
    both and create-session has returned a session for it, verify-otp
    with the same body looks under thread_id; if there is no session
    there it answers that the session is not found and leaves the new
    session where it is. *)
Theorem routes_disagree_on_the_id (data : Body.t) c t (m : Machine W) sent m1 :
  truthy (Body.session_id data) = false ->
  Body.chat_id data = Some c -> c <> "" ->
  Body.thread_id data = Some t -> t <> "" ->
  truthy (Body.phone data) = true ->
  truthy (Body.otp data) = true ->
  ROUTES_POST_create_session W handler data m = (Ok sent, m1) ->
  Map_get t (userSessions m1) = None ->
  Map_get c (userSessions m1) <> None /\
  ROUTES_POST_verify_otp W handler data m1 =
    (Ok (Sent.mk 200
           (inr (VerifyResult.mk false false false (Some t)
                   (Some "Session ไม่พบ กรุณาขอ OTP ใหม่") None None None))),
     m1).
Proof.
  intros S C Nc T Nt P O E G.
  apply String.eqb_neq in Nc, Nt.
  split.
  - revert E. open_routes. unfold js_or. rewrite S, C. simpl.
    repeat (rewrite ?Nc, ?P; simpl).
    pose proof (createSession_run c (the_string (Body.phone data)) m) as R.
    unfold bind. destruct (createSession c _ m) as [[r|e] m2];
      [|intros X; discriminate X].
    unfold ret. intros [= <- <-].
    destruct R as (tr1 & tr2 & _ & _ & _ & _ & _ & p & c0 & now & ->).
    rewrite Map_get_set_same. discriminate.
  - open_routes. unfold js_or. rewrite S, T. simpl.
    repeat (rewrite ?Nt, ?O; simpl).
    open_verifySessionOTP. unfold_monad. now rewrite G.
Qed.

(** X20. The cleanup route answers 200 with the number of sessions left
    after the sweep, which is the number of sessions at or under the
    maximum age at the time the sweep read. *)
Theorem ROUTES_POST_cleanup_counts_what_is_left (m : Machine W) :
  wf (userSessions m) ->
  exists n m',
    ROUTES_POST_cleanup W handler m =
      (Ok (Sent.mk 200 (CleanupBody.mk true n)), m') /\
    n = List.length (userSessions m') /\
    n = List.length
          (filter (fun kv => negb (too_old (fst (handler DateNow (world m))) (snd kv)))
                  (userSessions m)).
Proof.
  intros H. destruct (cleanupOldSessions_run m) as (w' & tr & E).
  open_routes. rewrite (bind_ok _ _ m _ _ E).
  unfold bind, getSessions, ret. simpl.
  do 2 eexists. split; [reflexivity|]. simpl. split; [reflexivity|].
  now rewrite (sweep_filter (too_old _) _ H).
Qed.

(** *** The command line *)

(** X21. Run from the command line the process has an empty table and no
    browser, and [main] leaves it so whatever the arguments: listing the
    sessions prints total 0 and no session, and the only calls are
    readings of the clock. *)
Theorem main_on_a_fresh_process args w :
  exists out w' tr,
    main W handler args (mkMachine [] None w []) =
      (Ok out, mkMachine [] None w' tr) /\
    Forall clock_read tr /\
    match out with
    | SessionsPrinted r => ListResult.total r = 0%nat /\ ListResult.sessions r = []
    | _ => True
    end.
Proof.
  open_main. destruct (Params_get "action" (parse_args args [])) as [[|a]|].
  - exists UsagePrinted, w, []. repeat split. constructor.
  - destruct (String.eqb a ""); [exists ServerStarted, w, []; repeat split; constructor|].
    destruct (String.eqb a "sessions").
    + exists (SessionsPrinted (ListResult.mk true 0 [])), w, [].
      repeat split. constructor.
    + destruct (String.eqb a "cleanup").
      * open_cleanupOldSessions. unfold_monad. ask.
        do 3 eexists. split; [reflexivity|]. split; [|exact I].
        repeat constructor.
      * exists UsagePrinted, w, []. repeat split. constructor.
  - exists ServerStarted, w, []. repeat split. constructor.
Qed.

(** X22. With arguments none of which starts with two dashes the server
    is started; when they are followed by a bare [--action], or by
    [--action] and an empty argument, the usage is printed and nothing
    else happens. *)
Theorem main_with_a_bare_action pre (m : Machine W) :
  Forall (fun a => startsWith_dashes a = false) pre ->
  main W handler pre m = (Ok ServerStarted, m) /\
  main W handler (pre ++ ["--action"]) m = (Ok UsagePrinted, m) /\
  main W handler (pre ++ ["--action"; ""]) m = (Ok UsagePrinted, m).
Proof.
  intros H. open_main. repeat split.
  - pose proof (parse_args_no_flags pre [] [] H) as E.
    rewrite app_nil_r in E. now rewrite E.
  - now rewrite (parse_args_no_flags pre _ [] H).
  - now rewrite (parse_args_no_flags pre _ [] H).
Qed.

(** X23. A parameter takes the next argument as its value even when that
    argument is [--action]: after arguments without dashes, a parameter
    other than action followed by [--action] and a word starts the
    server; the action is not seen. *)
Theorem main_parameter_swallows_action pre flag word (m : Machine W) :
  Forall (fun a => startsWith_dashes a = false) pre ->
  startsWith_dashes flag = true ->
  slice_2 flag <> "action" ->
  startsWith_dashes word = false ->
  main W handler (pre ++ [flag; "--action"; word]) m = (Ok ServerStarted, m).
Proof.
  intros H F N Wd. open_main. rewrite (parse_args_no_flags pre _ [] H).
  simpl. rewrite F, Wd. simpl.
  destruct (String.eqb (slice_2 flag) "action") eqn:E.
  - apply String.eqb_eq in E. contradiction.
  - reflexivity.
Qed.

End Runs.

(** ** Runs on concrete inputs *)

Example trim_otp : trim " 492817 " = "492817".
Proof. reflexivity. Qed.

(** A no-break space (U+00A0) before and a byte order mark (U+FEFF) and a
    line separator (U+2028) after are trimmed as well. *)
Example trim_unicode_spaces :
  trim (String (ascii_of_nat 194) (String (ascii_of_nat 160)
          ("492817" ++
           String (ascii_of_nat 239) (String (ascii_of_nat 187)
             (String (ascii_of_nat 191)
                (String (ascii_of_nat 226) (String (ascii_of_nat 128)
                   (String (ascii_of_nat 168) EmptyString))))))))%string
  = "492817".
Proof. reflexivity. Qed.

(** White space inside the text stays. *)
Example trim_keeps_inner_space : trim "  49 28 17  " = "49 28 17".
Proof. reflexivity. Qed.

Example create_then_list :
  let m1 := after (createSession Sim sim "alice" "0812345678" (boot (sim_start 1000 never))) in
  Map_keys (userSessions m1) = ["alice"] /\
  Map_get "alice" (userSessions m1) =
    Some (mkSession (Some 2%nat) (Some 1%nat) "0812345678" "492817" 1000 301000
            awaiting_verification) /\
  _browserPromise m1 = Some 0%nat /\
  openPages (world m1) = [(2%nat, 1%nat)].
Proof. vm_compute. repeat split. Qed.

(** ** Concrete runs of the properties *)

(** C1. The session table holds "alice" with tab 2 in context 1, and
    closing tab 2 is rejected.  [createSession] for "alice" then asks to
    close the tab, never asks to close context 1, drops the entry and
    opens context 3 and tab 4: the old context and its tab stay open
    beside the new ones. *)
Theorem createSession_leaves_prior_context_open :
  let m0 := resume alice_waiting
              (set_rejects rejects_closing_tab_2 (world alice_waiting)) in
  let m1 := after (createSession Sim sim "alice" "0812345678" m0) in
  Map_get "alice" (userSessions m0) = Some alice_session /\
  log m1 =
    [Ev (IsClosed 2%nat) (Gave (VBool false));
     Ev (PageClose 2%nat) (Threw "rejected");
     Ev (NewContext 0%nat) (Gave (VHandle 3));
     Ev (NewPage 3%nat) (Gave (VHandle 4));
     Ev (Goto 4%nat "https://test-otptg.netlify.app/" 10000) (Gave VUnit);
     Ev (WaitForSelector 4%nat "#phoneInput" 10000) (Gave VUnit);
     Ev (Fill 4%nat "#phoneInput" "0812345678") (Gave VUnit);
     Ev (Click 4%nat "#sendBtn") (Gave VUnit);
     Ev (WaitForOtpText 4%nat 10000) (Gave VUnit);
     Ev (InnerText 4%nat "#mockSmsText") (Gave (VText " 492817 "));
     Ev DateNow (Gave (VNum 1000))] /\
  (forall o, ~ In (Ev (ContextClose 1%nat) o) (log m1)) /\
  Map_get "alice" (userSessions m1) =
    Some (mkSession (Some 4%nat) (Some 3%nat) "0812345678" "492817" 1000 301000
            awaiting_verification) /\
  openContexts (world m1) = [3%nat; 1%nat] /\
  openPages (world m1) = [(4%nat, 3%nat); (2%nat, 1%nat)].
Proof.
  cbv zeta. split; [reflexivity|].
  assert (L : log (after (createSession Sim sim "alice" "0812345678"
                            (resume alice_waiting
                               (set_rejects rejects_closing_tab_2
                                  (world alice_waiting))))) =
              [Ev (IsClosed 2%nat) (Gave (VBool false));
               Ev (PageClose 2%nat) (Threw "rejected");
               Ev (NewContext 0%nat) (Gave (VHandle 3));
               Ev (NewPage 3%nat) (Gave (VHandle 4));
               Ev (Goto 4%nat "https://test-otptg.netlify.app/" 10000) (Gave VUnit);
               Ev (WaitForSelector 4%nat "#phoneInput" 10000) (Gave VUnit);
               Ev (Fill 4%nat "#phoneInput" "0812345678") (Gave VUnit);
               Ev (Click 4%nat "#sendBtn") (Gave VUnit);
               Ev (WaitForOtpText 4%nat 10000) (Gave VUnit);
               Ev (InnerText 4%nat "#mockSmsText") (Gave (VText " 492817 "));
               Ev DateNow (Gave (VNum 1000))]) by (vm_compute; reflexivity).
  split; [exact L|]. split.
  - intros o. rewrite L. simpl. intuition discriminate.
  - repeat split; vm_compute; reflexivity.
Qed.

(** The same call when closing the tab goes through: context 1 is asked
    to close before context 3 is opened. *)
Example createSession_replaces_cleanly :
  let m1 := after (createSession Sim sim "alice" "0812345678"
                     (resume alice_waiting (world alice_waiting))) in
  firstn 4 (log m1) =
    [Ev (IsClosed 2%nat) (Gave (VBool false));
     Ev (PageClose 2%nat) (Gave VUnit);
     Ev (ContextClose 1%nat) (Gave VUnit);
     Ev (NewContext 0%nat) (Gave (VHandle 3))] /\
  openContexts (world m1) = [3%nat] /\
  openPages (world m1) = [(4%nat, 3%nat)].
Proof. vm_compute. repeat split. Qed.

(** C6. The table holds "alice" with tab 2 in context 1; the click on
    the verify button is rejected, and so is the closing of tab 2.
    [verifySessionOTP] returns the error result and the entry is gone,
    but the closing of the session asked only for the tab and was
    refused: context 1 is never asked to close and stays open with its
    tab. *)
Theorem verifySessionOTP_error_leaves_context_open :
  let m0 := resume alice_waiting
              (set_rejects rejects_click_and_closing_tab_2 (world alice_waiting)) in
  let run := verifySessionOTP Sim sim "alice" "111111" None m0 in
  Map_get "alice" (userSessions m0) = Some alice_session /\
  fst run = Ok (verify_error None "rejected") /\
  log (after run) =
    [Ev DateNow (Gave (VNum 1000));
     Ev (IsClosed 2%nat) (Gave (VBool false));
     Ev (WaitForSelector 2%nat "#otpInput" 10000) (Gave VUnit);
     Ev (Fill 2%nat "#otpInput" "111111") (Gave VUnit);
     Ev (Click 2%nat "#verifyBtn") (Threw "rejected");
     Ev (IsClosed 2%nat) (Gave (VBool false));
     Ev (PageClose 2%nat) (Threw "rejected")] /\
  (forall o, ~ In (Ev (ContextClose 1%nat) o) (log (after run))) /\
  Map_get "alice" (userSessions (after run)) = None /\
  openContexts (world (after run)) = [1%nat] /\
  openPages (world (after run)) = [(2%nat, 1%nat)].
Proof.
  cbv zeta. split; [vm_compute; reflexivity|].
  split; [vm_compute; reflexivity|].
  assert (L : log (after (verifySessionOTP Sim sim "alice" "111111" None
                            (resume alice_waiting
                               (set_rejects rejects_click_and_closing_tab_2
                                  (world alice_waiting))))) =
              [Ev DateNow (Gave (VNum 1000));
               Ev (IsClosed 2%nat) (Gave (VBool false));
               Ev (WaitForSelector 2%nat "#otpInput" 10000) (Gave VUnit);
               Ev (Fill 2%nat "#otpInput" "111111") (Gave VUnit);
               Ev (Click 2%nat "#verifyBtn") (Threw "rejected");
               Ev (IsClosed 2%nat) (Gave (VBool false));
               Ev (PageClose 2%nat) (Threw "rejected")]) by (vm_compute; reflexivity).
  split; [exact L|]. split.
  - intros o. rewrite L. simpl. intuition discriminate.
  - repeat split; vm_compute; reflexivity.
Qed.

(** The same verification when only the click is rejected: the error
    result comes with the session closed, tab and context asked to close
    and closed. *)
Example verifySessionOTP_error_closes_cleanly :
  let m0 := resume alice_waiting (set_rejects rejects_click (world alice_waiting)) in
  let run := verifySessionOTP Sim sim "alice" "111111" None m0 in
  submit_rejected 2%nat "111111" "rejected" (log (after run)) /\
  fst run = Ok (verify_error None "rejected") /\
  skipn 5 (log (after run)) =
    [Ev (IsClosed 2%nat) (Gave (VBool false));
     Ev (PageClose 2%nat) (Gave VUnit);
     Ev (ContextClose 1%nat) (Gave VUnit)] /\
  Map_get "alice" (userSessions (after run)) = None /\
  openContexts (world (after run)) = [] /\
  openPages (world (after run)) = [].
Proof.
  cbv zeta. split.
  - right. right. left. vm_compute. do 4 right. left. reflexivity.
  - repeat split; vm_compute; reflexivity.
Qed.

Lemma verifySessionOTP_expired_witness :
  Map_get "alice" (userSessions alice_late) = Some alice_session /\
  fst (sim DateNow (world alice_late)) > otpExpiresAt alice_session /\
  Map_get "alice"
    (userSessions (after (verifySessionOTP Sim sim "alice" "492817" None alice_late))) =
  None.
Proof.
  assert (G : Map_get "alice" (userSessions alice_late) = Some alice_session)
    by (vm_compute; reflexivity).
  assert (X : fst (sim DateNow (world alice_late)) > otpExpiresAt alice_session)
    by (vm_compute; reflexivity).
  split; [exact G|]. split; [exact X|].
  destruct (verifySessionOTP_expired Sim sim "alice" "492817" None alice_late
              alice_session G X) as (r & m' & E & _ & _ & _ & N & _).
  rewrite E. exact N.
Defined.


Lemma cleanupOldSessions_sweeps_by_age_witness :
  wf (userSessions carol_and_bob) /\
  exists m',
    cleanupOldSessions Sim sim carol_and_bob = (Ok tt, m') /\
    Map_get "carol" (userSessions m') = None /\
    Map_get "bob" (userSessions m') = Some bob_session.
Proof.
  assert (H : wf (userSessions carol_and_bob)) by (apply distinct_wf; reflexivity).
  split; [exact H|].
  destruct (cleanupOldSessions_sweeps_by_age Sim sim carol_and_bob H) as (m' & E & K).
  exists m'. split; [exact E|]. split.
  - apply (proj1 (K "carol" carol_session eq_refl)). vm_compute; reflexivity.
  - apply (proj2 (K "bob" bob_session eq_refl)). vm_compute. discriminate.
Defined.


Lemma alice_and_bob_reachable : reachable Sim sim alice_and_bob.
Proof.
  unfold alice_and_bob. apply reach_serve.
  unfold resume. apply reach_idle.
  unfold alice_waiting. apply reach_serve.
  unfold boot. apply reach_start.
Defined.

Lemma listing_counts_closable_witness :
  reachable Sim sim alice_and_bob /\
  exists r m',
    getAllSessions Sim sim alice_and_bob = (Ok r, m') /\
    ListResult.total r = 2%nat.
Proof.
  assert (H : reachable Sim sim alice_and_bob) by exact alice_and_bob_reachable.
  split; [exact H|].
  destruct (listing_counts_closable Sim sim alice_and_bob H)
    as (r & m' & E & _ & _ & T & _).
  exists r, m'. split; [exact E|]. rewrite T. reflexivity.
Defined.


(** ** Concrete runs of the further properties *)

Lemma alice_waiting_reachable : reachable Sim sim alice_waiting.
Proof.
  unfold alice_waiting. apply reach_serve.
  unfold boot. apply reach_start.
Defined.

Lemma alice_and_bob_later_reachable : reachable Sim sim alice_and_bob_later.
Proof.
  unfold alice_and_bob_later, resume. apply reach_idle.
  unfold alice_and_bob. apply reach_serve.
  unfold resume. apply reach_idle.
  exact alice_waiting_reachable.
Defined.

Lemma getBrowser_launches_once_witness :
  getBrowser Sim sim (boot (sim_start 1000 never)) =
    (Ok 0%nat, after (getBrowser Sim sim (boot (sim_start 1000 never)))) /\
  _browserPromise (after (getBrowser Sim sim (boot (sim_start 1000 never)))) =
    Some 0%nat.
Proof.
  assert (E : getBrowser Sim sim (boot (sim_start 1000 never)) =
              (Ok 0%nat, after (getBrowser Sim sim (boot (sim_start 1000 never)))))
    by (vm_compute; reflexivity).
  split; [exact E|].
  exact (proj1 (getBrowser_launches_once Sim sim _ _ _ E)).
Defined.

Lemma getBrowser_failed_launch_retries_witness :
  getBrowser Sim sim (boot (sim_start 1000 rejects_launch)) =
    (Throw "rejected",
     after (getBrowser Sim sim (boot (sim_start 1000 rejects_launch)))) /\
  _browserPromise
    (after (getBrowser Sim sim (boot (sim_start 1000 rejects_launch)))) = None.
Proof.
  assert (E : getBrowser Sim sim (boot (sim_start 1000 rejects_launch)) =
              (Throw "rejected",
               after (getBrowser Sim sim (boot (sim_start 1000 rejects_launch)))))
    by (vm_compute; reflexivity).
  split; [exact E|].
  exact (proj1 (proj2 (getBrowser_failed_launch_retries Sim sim _ _ _ E))).
Defined.

Lemma missing_session_is_left_alone_witness :
  Map_get "zoe" (userSessions alice_waiting) = None /\
  getSession Sim sim "zoe" alice_waiting =
    (Ok (GetMissing "Session ไม่พบ"), alice_waiting).
Proof.
  assert (G : Map_get "zoe" (userSessions alice_waiting) = None)
    by (vm_compute; reflexivity).
  split; [exact G|].
  exact (proj2 (proj2 (missing_session_is_left_alone Sim sim "zoe" "123456" None
                         alice_waiting G))).
Defined.

Lemma closeSession_requests_witness :
  Map_get "alice" (userSessions alice_waiting) = Some alice_session /\
  context alice_session = Some 1%nat /\
  exists r m' tr,
    closeSession Sim sim "alice" alice_waiting = (Ok r, m') /\
    log m' = log alice_waiting ++ tr /\
    (((exists o, In (Ev (ContextClose 1%nat) o) tr) /\
      (forall p e, ~ In (Ev (PageClose p) (Threw e)) tr))
     \/
     ((exists p e, page alice_session = Some p /\ In (Ev (PageClose p) (Threw e)) tr) /\
      (forall c' o, ~ In (Ev (ContextClose c') o) tr))).
Proof.
  assert (G : Map_get "alice" (userSessions alice_waiting) = Some alice_session)
    by (vm_compute; reflexivity).
  assert (C : context alice_session = Some 1%nat) by reflexivity.
  split; [exact G|]. split; [exact C|].
  exact (closeSession_requests Sim sim "alice" alice_waiting alice_session 1%nat G C).
Defined.

Lemma createSession_stores_what_it_returns_witness :
  createSession Sim sim "alice" "0812345678" (boot (sim_start 1000 never)) =
    (Ok (CreateResult.mk true "alice" "492817" "0812345678" 300
           "Session สร้างสำเร็จ รอการยืนยัน"),
     alice_waiting) /\
  exists p c now text tr,
    log alice_waiting = log (boot (sim_start 1000 never)) ++ tr /\
    In (Ev (InnerText p "#mockSmsText") (Gave (VText text))) tr /\
    In (Ev DateNow (Gave (VNum now))) tr /\
    CreateResult.mk true "alice" "492817" "0812345678" 300
      "Session สร้างสำเร็จ รอการยืนยัน" =
    CreateResult.mk true "alice" (trim text) "0812345678" 300
      "Session สร้างสำเร็จ รอการยืนยัน" /\
    Map_get "alice" (userSessions alice_waiting) =
      Some (mkSession (Some p) (Some c) "0812345678" (trim text) now
              (now + 300000) awaiting_verification).
Proof.
  assert (E : createSession Sim sim "alice" "0812345678" (boot (sim_start 1000 never)) =
              (Ok (CreateResult.mk true "alice" "492817" "0812345678" 300
                     "Session สร้างสำเร็จ รอการยืนยัน"),
               alice_waiting))
    by (vm_compute; reflexivity).
  split; [exact E|].
  exact (createSession_stores_what_it_returns Sim sim _ _ _ _ _ E).
Defined.

Lemma createSession_then_getSession_witness :
  createSession Sim sim "alice" "0812345678" (boot (sim_start 1000 never)) =
    (Ok (CreateResult.mk true "alice" "492817" "0812345678" 300
           "Session สร้างสำเร็จ รอการยืนยัน"),
     alice_waiting) /\
  exists info m2,
    getSession Sim sim "alice"
      (mkMachine (userSessions alice_waiting) (_browserPromise alice_waiting)
         (sim_start 5000 never) []) = (Ok (GetFound info), m2) /\
    SessionInfo.otp info = "492817".
Proof.
  assert (E : createSession Sim sim "alice" "0812345678" (boot (sim_start 1000 never)) =
              (Ok (CreateResult.mk true "alice" "492817" "0812345678" 300
                     "Session สร้างสำเร็จ รอการยืนยัน"),
               alice_waiting))
    by (vm_compute; reflexivity).
  split; [exact E|].
  destruct (createSession_then_getSession Sim sim _ _ _ _ _ E (sim_start 5000 never) [])
    as (info & m2 & G & _ & O & _).
  exists info, m2. split; [exact G | exact O].
Defined.

Lemma verifySessionOTP_five_results_witness :
  Map_get "alice" (userSessions alice_waiting) = Some alice_session /\
  exists r m',
    verifySessionOTP Sim sim "alice" "000000" None alice_waiting = (Ok r, m') /\
    (((r = verify_expired None \/ r = verify_page_closed None \/
       (exists e, r = verify_error None e) \/ r = verify_success None) /\
      Map_get "alice" (userSessions m') = None)
     \/
     (r = verify_failed None /\
      Map_get "alice" (userSessions m') =
        Some (set_status awaiting_verification alice_session))).
Proof.
  assert (G : Map_get "alice" (userSessions alice_waiting) = Some alice_session)
    by (vm_compute; reflexivity).
  split; [exact G|].
  exact (verifySessionOTP_five_results Sim sim "alice" "000000" None alice_waiting
           alice_session G).
Defined.

Lemma cleanupOldSessions_without_old_sessions_witness :
  forallb
    (fun kv => negb (too_old (fst (sim DateNow (world alice_waiting))) (snd kv)))
    (userSessions alice_waiting) = true /\
  userSessions (after (cleanupOldSessions Sim sim alice_waiting)) =
  userSessions alice_waiting.
Proof.
  assert (H : forallb
                (fun kv => negb (too_old (fst (sim DateNow (world alice_waiting)))
                                   (snd kv)))
                (userSessions alice_waiting) = true)
    by (vm_compute; reflexivity).
  split; [exact H|].
  rewrite (cleanupOldSessions_without_old_sessions Sim sim alice_waiting H).
  reflexivity.
Defined.

Lemma reachable_sessions_keep_their_creation_fields_witness :
  reachable Sim sim alice_waiting /\
  Map_get "alice" (userSessions alice_waiting) = Some alice_session /\
  otpExpiresAt alice_session = createdAt alice_session + 300000.
Proof.
  assert (G : Map_get "alice" (userSessions alice_waiting) = Some alice_session)
    by (vm_compute; reflexivity).
  split; [exact alice_waiting_reachable|]. split; [exact G|].
  exact (proj2 (proj2 (reachable_sessions_keep_their_creation_fields Sim sim
                         alice_waiting "alice" alice_session
                         alice_waiting_reachable G))).
Defined.

Lemma cleanupOldSessions_takes_only_expired_witness :
  reachable Sim sim alice_and_bob_later /\
  Map_get "alice" (userSessions alice_and_bob_later) = Some alice_session /\
  Map_get "alice"
    (userSessions (after (cleanupOldSessions Sim sim alice_and_bob_later))) = None /\
  fst (sim DateNow (world alice_and_bob_later)) > otpExpiresAt alice_session.
Proof.
  assert (G : Map_get "alice" (userSessions alice_and_bob_later) = Some alice_session)
    by (vm_compute; reflexivity).
  assert (N : Map_get "alice"
                (userSessions (after (cleanupOldSessions Sim sim alice_and_bob_later))) =
              None)
    by (vm_compute; reflexivity).
  split; [exact alice_and_bob_later_reachable|]. split; [exact G|]. split; [exact N|].
  exact (cleanupOldSessions_takes_only_expired Sim sim alice_and_bob_later "alice"
           alice_session alice_and_bob_later_reachable G N).
Defined.



Lemma verifySessionOTP_retry_changes_nothing_witness :
  reachable Sim sim alice_waiting /\
  verifySessionOTP Sim sim "alice" "000000" None alice_waiting =
    (Ok (verify_failed None),
     after (verifySessionOTP Sim sim "alice" "000000" None alice_waiting)) /\
  userSessions (after (verifySessionOTP Sim sim "alice" "000000" None alice_waiting)) =
  userSessions alice_waiting.
Proof.
  assert (E : verifySessionOTP Sim sim "alice" "000000" None alice_waiting =
              (Ok (verify_failed None),
               after (verifySessionOTP Sim sim "alice" "000000" None alice_waiting)))
    by (vm_compute; reflexivity).
  split; [exact alice_waiting_reachable|]. split; [exact E|].
  exact (proj1 (verifySessionOTP_retry_changes_nothing Sim sim "alice" "000000" None
                  alice_waiting _ _ alice_waiting_reachable E eq_refl)).
Defined.

Lemma routes_reject_a_body_without_id_witness :
  truthy (Body.session_id body_without_id) = false /\
  truthy (Body.chat_id body_without_id) = false /\
  truthy (Body.thread_id body_without_id) = false /\
  ROUTES_POST_close_session Sim sim body_without_id alice_waiting =
    (Ok (Sent.mk 400 (inl (ErrorBody.mk false "กรุณาระบุ session_id"))),
     alice_waiting).
Proof.
  repeat (split; [reflexivity|]).
  exact (proj2 (proj2 (proj2 (routes_reject_a_body_without_id Sim sim body_without_id
                                alice_waiting eq_refl eq_refl eq_refl)))).
Defined.

Lemma routes_disagree_on_the_id_witness :
  let m1 := after (ROUTES_POST_create_session Sim sim body_chat_and_thread
                     (boot (sim_start 1000 never))) in
  Map_get "thread-9" (userSessions m1) = None /\
  Map_get "chat-7" (userSessions m1) <> None /\
  ROUTES_POST_verify_otp Sim sim body_chat_and_thread m1 =
    (Ok (Sent.mk 200
           (inr (VerifyResult.mk false false false (Some "thread-9")
                   (Some "Session ไม่พบ กรุณาขอ OTP ใหม่") None None None))),
     m1).
Proof.
  cbv zeta.
  assert (E : ROUTES_POST_create_session Sim sim body_chat_and_thread
                (boot (sim_start 1000 never)) =
              (Ok (Sent.mk 200
                     (inr (CreateResult.mk true "chat-7" "492817" "0812345678" 300
                             "Session สร้างสำเร็จ รอการยืนยัน"))),
               after (ROUTES_POST_create_session Sim sim body_chat_and_thread
                        (boot (sim_start 1000 never)))))
    by (vm_compute; reflexivity).
  assert (G : Map_get "thread-9"
                (userSessions
                   (after (ROUTES_POST_create_session Sim sim body_chat_and_thread
                             (boot (sim_start 1000 never))))) = None)
    by (vm_compute; reflexivity).
  assert (Nc : "chat-7" <> "") by discriminate.
  assert (Nt : "thread-9" <> "") by discriminate.
  split; [exact G|].
  exact (routes_disagree_on_the_id Sim sim body_chat_and_thread "chat-7" "thread-9"
           (boot (sim_start 1000 never)) _ _ eq_refl eq_refl Nc eq_refl Nt
           eq_refl eq_refl E G).
Defined.

Lemma ROUTES_POST_cleanup_counts_what_is_left_witness :
  wf (userSessions carol_and_bob) /\
  exists n m',
    ROUTES_POST_cleanup Sim sim carol_and_bob =
      (Ok (Sent.mk 200 (CleanupBody.mk true n)), m') /\
    n = 1%nat.
Proof.
  assert (H : wf (userSessions carol_and_bob)) by (apply distinct_wf; reflexivity).
  split; [exact H|].
  destruct (ROUTES_POST_cleanup_counts_what_is_left Sim sim carol_and_bob H)
    as (n & m' & E & _ & N).
  exists n, m'. split; [exact E|]. rewrite N. vm_compute. reflexivity.
Defined.

Lemma main_with_a_bare_action_witness :
  Forall (fun a => startsWith_dashes a = false) ["serve"; "-v"] /\
  main Sim sim ["serve"; "-v"; "--action"] alice_waiting =
    (Ok UsagePrinted, alice_waiting).
Proof.
  assert (H : Forall (fun a => startsWith_dashes a = false) ["serve"; "-v"])
    by (repeat constructor).
  split; [exact H|].
  exact (proj1 (proj2 (main_with_a_bare_action Sim sim ["serve"; "-v"]
                         alice_waiting H))).
Defined.

Lemma main_parameter_swallows_action_witness :
  main Sim sim ["--verbose"; "--action"; "cleanup"] alice_waiting =
    (Ok ServerStarted, alice_waiting).
Proof.
  apply (main_parameter_swallows_action Sim sim [] "--verbose" "cleanup" alice_waiting).
  - constructor.
  - reflexivity.
  - discriminate.
  - reflexivity.
Defined.
